(** * ihome.api_1_0.passport: registration, login and the login limiter

    A shallow embedding of [src/ihome/api_1_0/passport.py] (the Flask views
    [register], [login], [check_login], [logout]) together with the
    collaborators the views talk to: the Redis key-value store holding the
    SMS verification codes and the per-address attempt counters, the user
    table, the request-scoped session and the application log.

    Conventions of the embedding:
    - a Python [str] is a [string] whose characters stand for code points
      0..255 (text in the Latin-1 range); [bytes] is a [string] of octets;
    - the views run in a monad that threads the world, raises Python
      exceptions and executes [return] statements (an early exit);
    - every call on a store appends an event to the trace of the world, so
      that "no store was touched" is a statement about the trace;
    - whether a store call raises is chosen by the environment: a record of
      faults is an input of every view. *)

From Stdlib Require Import ZArith String Ascii List Bool Lia.
From Stdlib Require Import DecimalString DecimalZ DecimalPos DecimalN.
From stdpp Require Import base option gmap strings list.

Local Open Scope string_scope.
Local Open Scope Z_scope.

(** ** Python values reaching the views *)

(** What [req_dict.get(...)] yields for a field of the JSON body: [None]
    (field absent or null), a string, an integer or a boolean.  The views
    do not test the type of a field: what they do with a value that is not
    a string is part of the model.  Floats, arrays and objects are left
    out; like the integers they are no strings, and the views treat them
    the same way (tested for truth, handed to [re.match], compared). *)
Inductive pyval : Type :=
  | PyNone
  | PyStr (s : string)
  | PyInt (z : Z)
  | PyBool (b : bool).

#[global] Instance pyval_eq_dec : EqDecision pyval.
Proof. solve_decision. Defined.

(** Truth value of an object, as [all] and [if] test it. *)
Definition truthy (v : pyval) : bool :=
  match v with
  | PyNone => false
  | PyStr s => negb (String.eqb s "")
  | PyInt z => negb (z =? 0)
  | PyBool b => b
  end.

(** [all(iterable)] *)
Definition all (vs : list pyval) : bool := forallb truthy vs.

(** The number a value is compared as: [bool] is a subclass of [int], with
    [True == 1] and [False == 0]. *)
Definition number_of (v : pyval) : option Z :=
  match v with
  | PyInt z => Some z
  | PyBool b => Some (if b then 1 else 0)
  | _ => None
  end.

(** [x == y]: [None] equals itself only, strings are compared by their
    characters, numbers by their value; values of different kinds differ. *)
Definition py_eq (x y : pyval) : bool :=
  match x, y with
  | PyNone, PyNone => true
  | PyStr s, PyStr t => String.eqb s t
  | _, _ =>
      match number_of x, number_of y with
      | Some m, Some n => m =? n
      | _, _ => false
      end
  end.

(** [x != y] *)
Definition py_ne (x y : pyval) : bool := negb (py_eq x y).


(** [dict.get(key)] and [dict.get(key, default)] on the JSON body. *)
Definition dict_get (d : gmap string pyval) (k : string) : pyval :=
  default PyNone (d !! k).

Definition dict_get_default (d : gmap string pyval) (k : string) (dflt : pyval) : pyval :=
  default dflt (d !! k).

(** ** Regular expressions: the fragment [re.match] is used with *)

Module Re.

Inductive regex : Type :=
  | Lit (c : ascii)
  | Class (p : ascii -> bool)
  | Cat (r1 r2 : regex)
  | Repeat (n : nat) (r : regex).

(** All the ways [r] matches at the start of [s]: the list of what is left
    of [s] after each match. *)
Fixpoint remainders (r : regex) (s : string) : list string :=
  match r with
  | Lit c =>
      match s with
      | String a t => if Ascii.eqb a c then [t] else []
      | EmptyString => []
      end
  | Class p =>
      match s with
      | String a t => if p a then [t] else []
      | EmptyString => []
      end
  | Cat r1 r2 => flat_map (remainders r2) (remainders r1 s)
  | Repeat n r1 =>
      (fix times (k : nat) (s0 : string) : list string :=
         match k with
         | O => [s0]
         | S k' => flat_map (times k') (remainders r1 s0)
         end) n s
  end.

(** [re.match(pattern, string)] as a truth value: a match object when the
    pattern matches at the beginning of the string, [None] otherwise. *)
Definition rematch (r : regex) (s : string) : bool :=
  match remainders r s with
  | [] => false
  | _ :: _ => true
  end.

(** [\d] on text in the Latin-1 range: the ten ASCII digits, the only
    decimal digits Unicode has below code point 256.  (On other text [\d]
    also matches the decimal digits of other scripts.) *)
Definition digit (a : ascii) : bool :=
  let n := N_of_ascii a in ((48 <=? n) && (n <=? 57))%N.

(** A bracketed set of characters, [[...]]. *)
Definition one_of (set : string) (a : ascii) : bool :=
  existsb (Ascii.eqb a) (list_ascii_of_string set).

End Re.

(** The pattern [r'1[345678]\d{9}'] of both views. *)
Definition mobile_re : Re.regex :=
  Re.Cat (Re.Lit "1") (Re.Cat (Re.Class (Re.one_of "345678")) (Re.Repeat 9 (Re.Class Re.digit))).

(** ** Bytes and text *)

Module Bytes.

(** A continuation octet of UTF-8 (10xxxxxx) and its six payload bits. *)
Definition cont (a : ascii) : option N :=
  let n := N_of_ascii a in
  if ((128 <=? n) && (n <=? 191))%N then Some (n - 128)%N else None.

(** [bytes.decode()] with the default codec (UTF-8, strict): the code points
    of the text, or [None] where Python raises [UnicodeDecodeError]
    (truncated or overlong sequences, surrogates, values above U+10FFFF). *)
Fixpoint decode (b : string) : option (list N) :=
  match b with
  | EmptyString => Some []
  | String a0 t0 =>
      let n0 := N_of_ascii a0 in
      if (n0 <? 128)%N then cons n0 <$> decode t0
      else if ((194 <=? n0) && (n0 <=? 223))%N then
        match t0 with
        | String a1 t1 =>
            match cont a1 with
            | Some c1 => cons ((n0 - 192) * 64 + c1)%N <$> decode t1
            | None => None
            end
        | _ => None
        end
      else if ((224 <=? n0) && (n0 <=? 239))%N then
        match t0 with
        | String a1 (String a2 t2) =>
            match cont a1, cont a2 with
            | Some c1, Some c2 =>
                let cp := ((n0 - 224) * 4096 + c1 * 64 + c2)%N in
                if ((2048 <=? cp) && negb ((55296 <=? cp) && (cp <=? 57343)))%N
                then cons cp <$> decode t2 else None
            | _, _ => None
            end
        | _ => None
        end
      else if ((240 <=? n0) && (n0 <=? 244))%N then
        match t0 with
        | String a1 (String a2 (String a3 t3)) =>
            match cont a1, cont a2, cont a3 with
            | Some c1, Some c2, Some c3 =>
                let cp := ((n0 - 240) * 262144 + c1 * 4096 + c2 * 64 + c3)%N in
                if ((65536 <=? cp) && (cp <=? 1114111))%N
                then cons cp <$> decode t3 else None
            | _, _, _ => None
            end
        | _ => None
        end
      else None
  end.

(** The code points of a [str] of the model. *)
Definition codepoints (s : string) : list N :=
  map N_of_ascii (list_ascii_of_string s).

(** Whitespace as [int] skips it: space, and the controls 9..13. *)
Definition is_space (a : ascii) : bool :=
  let n := N_of_ascii a in ((n =? 32) || ((9 <=? n) && (n <=? 13)))%N.

Fixpoint lstrip (l : list ascii) : list ascii :=
  match l with
  | [] => []
  | a :: t => if is_space a then lstrip t else l
  end.

Fixpoint rstrip (l : list ascii) : list ascii :=
  match l with
  | [] => []
  | a :: t =>
      match rstrip t with
      | [] => if is_space a then [] else [a]
      | t' => a :: t'
      end
  end.

(** The decimal digit a character denotes, as the constructor of
    [Decimal.uint] that prepends it. *)
Definition digit_of (a : ascii) : option (Decimal.uint -> Decimal.uint) :=
  match N_of_ascii a with
  | 48%N => Some Decimal.D0 | 49%N => Some Decimal.D1 | 50%N => Some Decimal.D2
  | 51%N => Some Decimal.D3 | 52%N => Some Decimal.D4 | 53%N => Some Decimal.D5
  | 54%N => Some Decimal.D6 | 55%N => Some Decimal.D7 | 56%N => Some Decimal.D8
  | 57%N => Some Decimal.D9
  | _ => None
  end.

(** Digits of an integer literal, single underscores allowed between two
    digits only; [after_digit] tells whether the previous character was a
    digit. *)
Fixpoint digits (after_digit : bool) (l : list ascii) : option Decimal.uint :=
  match l with
  | [] => if after_digit then Some Decimal.Nil else None
  | a :: t =>
      match digit_of a with
      | Some d => d <$> digits true t
      | None =>
          if Ascii.eqb a "_" && after_digit then
            match t with
            | [] => None
            | _ :: _ => digits false t
            end
          else None
      end
  end.

(** [int(b)] for a bytes object, base ten: surrounding whitespace, an
    optional sign, then the digits.  [None] where Python raises
    [ValueError].  (CPython from 3.11 on also refuses more than 4300
    digits; a counter written by INCR has at most twenty characters.) *)
Definition to_int (b : string) : option Z :=
  match rstrip (lstrip (list_ascii_of_string b)) with
  | [] => None
  | a :: t =>
      if Ascii.eqb a "-" then (fun u => - Z.of_uint u) <$> digits false t
      else if Ascii.eqb a "+" then Z.of_uint <$> digits false t
      else Z.of_uint <$> digits false (a :: t)
  end.

(** The canonical decimal text of an integer, as Redis writes it and as
    [str] prints it. *)
Definition of_int (z : Z) : string := NilZero.string_of_int (Z.to_int z).

End Bytes.

(** ** Exceptions, response codes and responses *)

(** Exceptions a store client raises: SQLAlchemy's [IntegrityError], any other
    SQLAlchemy error, and an error of the Redis client (connection lost,
    timeout, or an error reply of the server). *)
Inductive store_exn : Type :=
  | IntegrityError
  | SQLAlchemyError
  | RedisError.

Inductive exn : Type :=
  | StoreError (e : store_exn)
  | TypeError
  | ValueError
  | UnicodeDecodeError
  | AttributeError.

#[global] Instance store_exn_eq_dec : EqDecision store_exn.
Proof. solve_decision. Defined.

#[global] Instance exn_eq_dec : EqDecision exn.
Proof. solve_decision. Defined.

(** Modelled from the spec: the table [ihome.utils.response_code.RET] is not
    among the sources.  Its members are kept symbolic, one constructor for
    each member the views name; they carry the error kinds of the spec's
    section 7 ([PARAMERR] for invalid input, [NODATA] for a code that is
    expired or missing, [DATAERR] for a data error such as a code mismatch or
    invalid credentials, [DATAEXIST] for an identity that already exists,
    [DBERR] for a storage error, [REQERR] for too many attempts,
    [SESSIONERR] for an unauthenticated session). *)
Module RET.
Inductive t : Type :=
  | OK | DBERR | NODATA | DATAEXIST | DATAERR | SESSIONERR | PARAMERR | REQERR.

#[global] Instance eq_dec : EqDecision t.
Proof. solve_decision. Defined.
End RET.

(** Values kept in the session. *)
Inductive sval : Type :=
  | SNone
  | SStr (s : string)
  | SInt (z : Z).

(** [jsonify(errno=..., errmsg=..., data=...)] *)
Record response : Type := jsonify {
  errno : RET.t;
  errmsg : string;
  data : list (string * sval)
}.

(** ** The world the views run in *)

(** A Redis key: its value and, when a time to live is set, the instant at
    which it expires. *)
Record entry : Type := Entry {
  value : string;
  expires : option Z
}.

(** A row of the user table ([ihome.models.User]). *)
Record User : Type := mkUser {
  user_id : Z;
  user_name : string;
  user_mobile : string;
  password_hash : string
}.

(** Calls on the stores and on the logger, in the order they happen. *)
Inductive event : Type :=
  | RedisGet (key : string)
  | RedisDelete (key : string)
  | RedisIncr (key : string)
  | RedisExpire (key : string) (seconds : Z)
  | DbQuery (mobile : string)
  | DbAdd (mobile : string)
  | DbCommit
  | DbRollback
  | LogError (e : exn).

Record world : Type := World {
  redis : gmap string entry;
  clock : Z;
  users : list User;
  pending : list User;
  session : gmap string sval;
  trace : list event
}.

Definition set_redis (r : gmap string entry) (w : world) : world :=
  let 'World _ c us ps s tr := w in World r c us ps s tr.

Definition set_clock (t : Z) (w : world) : world :=
  let 'World r _ us ps s tr := w in World r t us ps s tr.

Definition set_users (us ps : list User) (w : world) : world :=
  let 'World r c _ _ s tr := w in World r c us ps s tr.

Definition set_session (s : gmap string sval) (w : world) : world :=
  let 'World r c us ps _ tr := w in World r c us ps s tr.

Definition record (ev : event) (w : world) : world :=
  let 'World r c us ps s tr := w in World r c us ps s (tr ++ [ev]).

(** Time passing between two requests. *)
Definition elapse (seconds : Z) (w : world) : world :=
  set_clock (clock w + seconds) w.

(** Which store calls of a request raise, and what. *)
Record faults : Type := Faults {
  get_fault : option store_exn;
  delete_fault : option store_exn;
  incr_fault : option store_exn;
  expire_fault : option store_exn;
  query_fault : option store_exn;
  commit_fault : option store_exn
}.

Definition no_faults : faults := Faults None None None None None None.

(** ** The monad of a view: state, exceptions and [return] *)

Inductive outcome (A : Type) : Type :=
  | Normal (a : A)
  | Return (r : response)
  | Raise (e : exn).

Arguments Normal {A} a.
Arguments Return {A} r.
Arguments Raise {A} e.

Definition M (A : Type) : Type := world -> outcome A * world.

Definition ret {A} (a : A) : M A := fun w => (Normal a, w).

Definition bind {A B} (m : M A) (k : A -> M B) : M B :=
  fun w =>
    match m w with
    | (Normal a, w') => k a w'
    | (Return r, w') => (Return r, w')
    | (Raise e, w') => (Raise e, w')
    end.

(** The statement [return r]. *)
Definition return_ {A} (r : response) : M A := fun w => (Return r, w).

Definition raise {A} (e : exn) : M A := fun w => (Raise e, w).

(** [try: body  except Exception as e: handler] *)
Definition try_except {A} (body : M A) (handler : exn -> M A) : M A :=
  fun w =>
    match body w with
    | (Raise e, w') => handler e w'
    | other => other
    end.

(** [try: x = body  except Exception as e: handler  else: orelse]; an
    exception raised in the [else] suite is not handled here. *)
Definition try_except_else {A B} (body : M A) (handler : exn -> M B) (orelse : A -> M B) : M B :=
  fun w =>
    match body w with
    | (Normal a, w') => orelse a w'
    | (Return r, w') => (Return r, w')
    | (Raise e, w') => handler e w'
    end.

Declare Scope view_scope.
Delimit Scope view_scope with view.

Notation "x <- m ;; k" := (bind m (fun x => k))
  (at level 100, m at next level, right associativity) : view_scope.
Notation "m ;;; k" := (bind m (fun _ => k))
  (at level 100, right associativity) : view_scope.

(** What the caller of a view gets: the response, or the exception that
    escaped the view. *)
Definition call (view : M response) (w : world) : (exn + response) * world :=
  match view w with
  | (Normal r, w') => (inr r, w')
  | (Return r, w') => (inr r, w')
  | (Raise e, w') => (inl e, w')
  end.

(** A call on a store: recorded in the trace, then either the fault the
    environment chose or the operation itself. *)
Definition store_call {A} (ev : event) (fault : option store_exn) (op : M A) : M A :=
  fun w =>
    let w1 := record ev w in
    match fault with
    | Some e => (Raise (StoreError e), w1)
    | None => op w1
    end.

(** [current_app.logger.error(e)] *)
Definition logger_error (e : exn) : M unit :=
  fun w => (Normal tt, record (LogError e) w).

(** ** Redis *)

Module Redis.

(** The entry under [key] that has not expired at the instant [now]. *)
Definition live_at (r : gmap string entry) (now : Z) (key : string) : option entry :=
  match r !! key with
  | Some en =>
      match expires en with
      | Some t => if t <=? now then None else Some en
      | None => Some en
      end
  | None => None
  end.

Definition live (w : world) (key : string) : option entry :=
  live_at (redis w) (clock w) key.

Definition int64 (z : Z) : bool := (- 2 ^ 63 <=? z) && (z <? 2 ^ 63).

(** The integer a stored string denotes for [INCR]: the canonical decimal
    text of a 64-bit signed integer, nothing else. *)
Definition stored_int (b : string) : option Z :=
  match NilZero.int_of_string b with
  | Some d =>
      let z := Z.of_int d in
      if String.eqb (Bytes.of_int z) b && int64 z then Some z else None
  | None => None
  end.

(** [redis_store.get(key)]: the bytes stored, or [None]. *)
Definition get (f : faults) (key : string) : M (option string) :=
  store_call (RedisGet key) (get_fault f)
    (fun w => (Normal (value <$> live w key), w)).

(** [redis_store.delete(key)]: the number of keys removed. *)
Definition delete (f : faults) (key : string) : M Z :=
  store_call (RedisDelete key) (delete_fault f)
    (fun w =>
       match live w key with
       | Some _ => (Normal 1, set_redis (base.delete key (redis w)) w)
       | None => (Normal 0, set_redis (base.delete key (redis w)) w)
       end).

(** [redis_store.incr(key)]: a key that does not exist counts as 0 and is
    created without a time to live; a value that is not an integer, or an
    overflow, is an error reply. *)
Definition incr (f : faults) (key : string) : M Z :=
  store_call (RedisIncr key) (incr_fault f)
    (fun w =>
       match live w key with
       | None => (Normal 1, set_redis (<[key := Entry (Bytes.of_int 1) None]> (redis w)) w)
       | Some en =>
           match stored_int (value en) with
           | Some z =>
               if int64 (z + 1)
               then (Normal (z + 1),
                     set_redis (<[key := Entry (Bytes.of_int (z + 1)) (expires en)]> (redis w)) w)
               else (Raise (StoreError RedisError), w)
           | None => (Raise (StoreError RedisError), w)
           end
       end).

(** [redis_store.expire(key, seconds)]: sets the time to live of an
    existing key; a time that is not positive deletes the key. *)
Definition expire (f : faults) (key : string) (seconds : Z) : M bool :=
  store_call (RedisExpire key seconds) (expire_fault f)
    (fun w =>
       match live w key with
       | None => (Normal false, w)
       | Some en =>
           if seconds <=? 0
           then (Normal true, set_redis (base.delete key (redis w)) w)
           else (Normal true,
                 set_redis (<[key := Entry (value en) (Some (clock w + seconds))]> (redis w)) w)
       end).

End Redis.

(** ** The user table *)

Module Db.

Definition has_mobile (mobile : string) (u : User) : bool :=
  String.eqb (user_mobile u) mobile.

(** [User.query.filter_by(mobile=mobile).first()] *)
Definition query_first (f : faults) (mobile : string) : M (option User) :=
  store_call (DbQuery mobile) (query_fault f)
    (fun w => (Normal (find (has_mobile mobile) (users w)), w)).

(** [db.session.add(user)] *)
Definition session_add (u : User) : M unit :=
  fun w => (Normal tt, set_users (users w) (pending w ++ [u]) (record (DbAdd (user_mobile u)) w)).

(** The next value of the auto-increment primary key. *)
Definition next_id (us : list User) : Z :=
  1 + fold_right Z.max 0 (map user_id us).

(** Inserting the pending rows one by one; [None] on a row whose mobile is
    already in the table. *)
Fixpoint flush (us ps : list User) : option (list User) :=
  match ps with
  | [] => Some us
  | p :: ps' =>
      if existsb (has_mobile (user_mobile p)) us then None
      else flush (us ++ [mkUser (next_id us) (user_name p) (user_mobile p) (password_hash p)]) ps'
  end.

(** Modelled from the spec: [ihome.models] is not among the sources; the
    uniqueness conflict the store reports is "identity already exists",
    that is a row with the same mobile.
    [db.session.commit()]: raises what the environment chose, raises
    [IntegrityError] on a uniqueness conflict, and inserts the pending
    rows otherwise. *)
Definition session_commit (f : faults) : M unit :=
  store_call DbCommit (commit_fault f)
    (fun w =>
       match flush (users w) (pending w) with
       | Some us => (Normal tt, set_users us [] w)
       | None => (Raise (StoreError IntegrityError), w)
       end).

(** [db.session.rollback()] *)
Definition session_rollback : M unit :=
  fun w => (Normal tt, set_users (users w) [] (record DbRollback w)).

(** [user.id] of the object that was added, once the commit has given it
    its primary key. *)
Definition id_of (mobile : string) : M sval :=
  fun w =>
    (Normal match find (has_mobile mobile) (users w) with
            | Some u => SInt (user_id u)
            | None => SNone
            end, w).

End Db.

(** ** The session *)

(** [session[key] = v] *)
Definition session_set (key : string) (v : sval) : M unit :=
  fun w => (Normal tt, set_session (<[key := v]> (session w)) w).

(** [session.get(key)] *)
Definition session_get (key : string) : M sval :=
  fun w => (Normal (default SNone (session w !! key)), w).

(** [session.clear()] *)
Definition session_clear : M unit :=
  fun w => (Normal tt, set_session ∅ w).

(** ** Helpers of the views *)

(** [re.match(pattern, x)]: a [TypeError] when [x] is not a string. *)
Definition re_match (r : Re.regex) (x : pyval) : M bool :=
  match x with
  | PyStr s => ret (Re.rematch r s)
  | _ => raise TypeError
  end.

(** [prefix % x] for a format ending in [%s]. *)
Definition format_s (prefix : string) (x : pyval) : string :=
  match x with
  | PyStr s => prefix ++ s
  | PyNone => prefix ++ "None"
  | PyInt z => prefix ++ Bytes.of_int z
  | PyBool b => prefix ++ (if b then "True" else "False")
  end.

(** [b.decode()] *)
Definition decode (b : string) : M (list N) :=
  match Bytes.decode b with
  | Some cps => ret cps
  | None => raise UnicodeDecodeError
  end.

(** [int(b)] *)
Definition int (b : string) : M Z :=
  match Bytes.to_int b with
  | Some z => ret z
  | None => raise ValueError
  end.

(** [text != x] for a decoded text and a value of the request. *)
Definition str_ne (text : list N) (x : pyval) : bool :=
  match x with
  | PyStr s => negb (bool_decide (text = Bytes.codepoints s))
  | _ => true
  end.

(** The string a value of the request holds: the mobile is used as one
    after [re.match] has accepted it, which it does for a string only. *)
Definition str_of (x : pyval) : string :=
  match x with
  | PyStr s => s
  | _ => ""
  end.

Definition is_integrity_error (e : exn) : bool :=
  bool_decide (e = StoreError IntegrityError).

(** A value the views turn down as a mobile number: none, or a string the
    pattern does not match.  (On a number or a boolean that is not falsy
    the format check does not answer: [re.match] raises.) *)
Definition invalid_mobile (x : pyval) : bool :=
  match x with
  | PyStr s => negb (Re.rematch mobile_re s)
  | PyNone => true
  | _ => false
  end.

(** The JSON body a client posts to [register] with four strings, and to
    [login] with two. *)
Definition register_form (mobile sms_code password password2 : string) : gmap string pyval :=
  <["mobile" := PyStr mobile]>
    (<["sms_code" := PyStr sms_code]>
       (<["password" := PyStr password]>
          (<["password2" := PyStr password2]> ∅))).

Definition login_form (mobile password : string) : gmap string pyval :=
  <["mobile" := PyStr mobile]> (<["password" := PyStr password]> ∅).


(** An event that writes to Redis. *)
Definition writes_redis (ev : event) : bool :=
  match ev with
  | RedisDelete _ | RedisIncr _ | RedisExpire _ _ => true
  | _ => false
  end.

(** ** Concrete data for the examples *)

(** A stand-in for the one-way hash of the user model. *)
Definition example_hash (password : string) : string := "pbkdf2:" ++ password.

Definition example_check (pwhash password : string) : bool :=
  String.eqb pwhash (example_hash password).

(** Stand-ins that refuse a secret that is not a string. *)
Definition example_hash_other (password : pyval) : option string := None.

Definition example_check_other (pwhash : string) (password : pyval) : option bool := None.

(** The subject "13800001111" with the code "4321" stored for five minutes. *)
Definition world_with_code : world :=
  World {[ "sms_code_13800001111" := Entry "4321" (Some 300) ]} 0 [] [] ∅ [].

(** The same subject registered with the password "secret". *)
Definition world_with_user : world :=
  World ∅ 0 [mkUser 1 "13800001111" "13800001111" (example_hash "secret")] [] ∅ [].

(** The registered subject, and two failed logins counted for the address
    "203.0.113.5". *)
Definition world_with_counter : world :=
  World {[ "access_nums_203.0.113.5" := Entry "2" (Some 600) ]} 0
    [mkUser 1 "13800001111" "13800001111" (example_hash "secret")] [] ∅ [].

(** The delete of the verification code fails; every other call works. *)
Definition delete_fails : faults := Faults None (Some RedisError) None None None None.

(** Redis is down: every call on it fails. *)
Definition redis_down : faults :=
  Faults (Some RedisError) (Some RedisError) (Some RedisError) (Some RedisError) None None.

(** ** The format of a mobile number, said directly *)

(** The code of the character lies between [lo] and [hi]. *)
Definition between (lo hi : N) (a : ascii) : bool :=
  let n := N_of_ascii a in ((lo <=? n) && (n <=? hi))%N.

(** A string of at least eleven characters: the digit 1, one of the digits
    3 to 8, then nine digits; what follows is free. *)
Definition mobile_shape (s : string) : bool :=
  match s with
  | String c1 (String c2 (String d1 (String d2 (String d3 (String d4
      (String d5 (String d6 (String d7 (String d8 (String d9 _)))))))))) =>
      Ascii.eqb c1 "1" && between 51 56 c2
      && between 48 57 d1 && between 48 57 d2 && between 48 57 d3
      && between 48 57 d4 && between 48 57 d5 && between 48 57 d6
      && between 48 57 d7 && between 48 57 d8 && between 48 57 d9
  | _ => false
  end.

(** The subject registered, and a code stored for it all the same. *)
Definition world_with_code_and_user : world :=
  World {[ "sms_code_13800001111" := Entry "4321" (Some 300) ]} 0
    [mkUser 1 "13800001111" "13800001111" (example_hash "secret")] [] ∅ [].

(** A stored code that is not UTF-8: the single octet 255. *)
Definition world_with_bad_code : world :=
  World {[ "sms_code_13800001111" := Entry (String (ascii_of_N 255) EmptyString) (Some 300) ]}
    0 [] [] ∅ [].

(** A counter that is not the text of an integer. *)
Definition world_with_bad_counter : world :=
  World {[ "access_nums_203.0.113.5" := Entry "many" None ]} 0
    [mkUser 1 "13800001111" "13800001111" (example_hash "secret")] [] ∅ [].

(** Five failed logins counted for the address "203.0.113.5". *)
Definition world_blocked : world :=
  World {[ "access_nums_203.0.113.5" := Entry "5" (Some 600) ]} 0
    [mkUser 1 "13800001111" "13800001111" (example_hash "secret")] [] ∅ [].

(** [expire] fails; every other call works. *)
Definition expire_fails : faults := Faults None None None (Some RedisError) None None.

(** [if cond: return r] *)
Definition if_return (cond : bool) (r : response) : M unit :=
  if cond then return_ r else ret tt.

Local Open Scope view_scope.

(** ** The views *)

Section Passport.

(** [ihome.constants], not among the sources: the number of failed logins
    allowed and the seconds the limit lasts. *)
Variable LOGIN_ERROR_MAX_TIMES : Z.
Variable LOGIN_ERROR_FORBID_TIME : Z.

(** Modelled from the spec: [ihome.models.User] is not among the sources;
    its [password] setter stores the secret through an external one-way
    hash, and [check_password] compares a secret with the stored hash by
    the external primitive. *)
Variable generate_password_hash : string -> string.
Variable check_password_hash : string -> string -> bool.

(** Modelled from the spec: what the two primitives do with a secret that
    is not a string is not described.  Each either answers or raises; the
    exception is taken to be a [TypeError], it does not come from a store. *)
Variable generate_password_hash_other : pyval -> option string.
Variable check_password_hash_other : string -> pyval -> option bool.

(** [user.check_password(password)] for a secret that is a string. *)
Definition check_password (u : User) (password : pyval) : bool :=
  check_password_hash (password_hash u) (str_of password).

(** [user.password = password]: the hash that is stored. *)
Definition set_password (password : pyval) : M string :=
  match password with
  | PyStr s => ret (generate_password_hash s)
  | _ =>
      match generate_password_hash_other password with
      | Some h => ret h
      | None => raise TypeError
      end
  end.

(** [user.check_password(password)] *)
Definition user_check_password (u : User) (password : pyval) : M bool :=
  match password with
  | PyStr _ => ret (check_password u password)
  | _ =>
      match check_password_hash_other (password_hash u) password with
      | Some b => ret b
      | None => raise TypeError
      end
  end.

(** [POST /users] *)
Definition register (f : faults) (req_dict : gmap string pyval) : M response :=
  let mobile := dict_get req_dict "mobile" in
  let sms_code := dict_get req_dict "sms_code" in
  let password := dict_get req_dict "password" in
  let password2 := dict_get req_dict "password2" in
  if_return (negb (all [mobile; sms_code; password; password2]))
    (jsonify RET.PARAMERR "参数不完整" []) ;;;
  m <- re_match mobile_re mobile ;;
  if_return (negb m) (jsonify RET.PARAMERR "手机格式错误" []) ;;;
  if_return (py_ne password password2)
    (jsonify RET.PARAMERR "两次密码不一致" []) ;;;
  real_sms_code <-
    try_except (Redis.get f (format_s "sms_code_" mobile))
      (fun e =>
         logger_error e ;;;
         return_ (jsonify RET.DBERR "读取真实短信验证码异常" [])) ;;
  real_sms_code <-
    match real_sms_code with
    | None => return_ (jsonify RET.NODATA "短信验证码失效" [])
    | Some b => ret b
    end ;;
  try_except (Redis.delete f (format_s "sms_code_" mobile) ;;; ret tt)
    (fun e => logger_error e) ;;;
  real_sms_code <- decode real_sms_code ;;
  if_return (str_ne real_sms_code sms_code)
    (jsonify RET.DATAERR "短信验证码错误" []) ;;;
  pwhash <- set_password password ;;
  let user := mkUser 0 (str_of mobile) (str_of mobile) pwhash in
  try_except (Db.session_add user ;;; Db.session_commit f)
    (fun e =>
       if is_integrity_error e then
         Db.session_rollback ;;;
         logger_error e ;;;
         return_ (jsonify RET.DATAEXIST "手机号已存在" [])
       else
         Db.session_rollback ;;;
         logger_error e ;;;
         return_ (jsonify RET.DATAERR "查询数据库异常" [])) ;;;
  session_set "name" (SStr (str_of mobile)) ;;;
  session_set "mobile" (SStr (str_of mobile)) ;;;
  uid <- Db.id_of (str_of mobile) ;;
  session_set "user_id" uid ;;;
  ret (jsonify RET.OK "注册成功" []).

(** [POST /session]; [remote_addr] is [request.remote_addr]. *)
Definition login (f : faults) (req_dict : gmap string pyval) (remote_addr : string) : M response :=
  let mobile := dict_get_default req_dict "mobile" (PyStr "") in
  let password := dict_get req_dict "password" in
  if_return (negb (all [mobile; password]))
    (jsonify RET.DATAERR "参数不完整" []) ;;;
  m <- re_match mobile_re mobile ;;
  if_return (negb m) (jsonify RET.DATAERR "手机号格式不正确" []) ;;;
  let user_ip := remote_addr in
  try_except_else (Redis.get f ("access_nums_" ++ user_ip))
    (fun e => logger_error e)
    (fun access_nums =>
       match access_nums with
       | Some b =>
           n <- int b ;;
           if_return (LOGIN_ERROR_MAX_TIMES <=? n)
             (jsonify RET.REQERR "错误次数太多，请稍后重试" [])
       | None => ret tt
       end) ;;;
  user <-
    try_except (Db.query_first f (str_of mobile))
      (fun e =>
         logger_error e ;;;
         return_ (jsonify RET.DBERR "获取用户信息失败" [])) ;;
  failed <-
    match user with
    | None => ret true
    | Some u => ok <- user_check_password u password ;; ret (negb ok)
    end ;;
  (if failed then
     try_except
       (Redis.incr f ("access_nums_" ++ user_ip) ;;;
        Redis.expire f ("access_nums_" ++ user_ip) LOGIN_ERROR_FORBID_TIME ;;;
        ret tt)
       (fun e => logger_error e) ;;;
     return_ (jsonify RET.DATAERR "用户名或密码错误" [])
   else ret tt) ;;;
  match user with
  | Some u =>
      session_set "name" (SStr (user_name u)) ;;;
      session_set "mobile" (SStr (user_mobile u)) ;;;
      session_set "user_id" (SInt (user_id u)) ;;;
      ret (jsonify RET.OK "登陆成功" [])
  | None => raise AttributeError
  end.

(** The limiter lets a request from [remote_addr] through: the read of
    the counter raises, or there is no counter, or its value is below the
    limit (the suite of [else] in [login]). *)
Definition limiter_passes (f : faults) (w : world) (remote_addr : string) : bool :=
  match get_fault f with
  | Some _ => true
  | None =>
      match Redis.live w ("access_nums_" ++ remote_addr) with
      | None => true
      | Some en =>
          match Bytes.to_int (value en) with
          | Some n => negb (LOGIN_ERROR_MAX_TIMES <=? n)
          | None => false
          end
      end
  end.

(** The credential check of [login] fails: no row for the mobile, or a
    row whose hash the password does not match. *)
Definition credentials_fail (w : world) (mobile password : string) : bool :=
  match find (Db.has_mobile mobile) (users w) with
  | None => true
  | Some u => negb (check_password u (PyStr password))
  end.

(** A run of failed logins from one address: each attempt is a delay in
    seconds since the previous request, a mobile and a password. *)
Fixpoint failed_logins (attempts : list (Z * string * string)) (remote_addr : string)
    (w : world) : world :=
  match attempts with
  | [] => w
  | (delay, mobile, password) :: rest =>
      failed_logins rest remote_addr
        (snd (call (login no_faults (login_form mobile password) remote_addr)
                (elapse delay w)))
  end.

(** An attempt of such a run: it comes before the limit of the previous
    failure has run out, is well formed, and fails the credential check
    against the users [us]. *)
Definition failing_attempt (us : list User) (a : Z * string * string) : Prop :=
  let '(delay, mobile, password) := a in
  0 <= delay < LOGIN_ERROR_FORBID_TIME
  /\ Re.rematch mobile_re mobile = true /\ password <> ""
  /\ match find (Db.has_mobile mobile) us with
     | None => true
     | Some u => negb (check_password u (PyStr password))
     end = true.

(** The counter of [remote_addr] after [n] failed logins, the last of them
    at the present instant: none for [n = 0], otherwise the text of [n]
    with the full time to live. *)
Definition counted (w : world) (remote_addr : string) (n : Z) : Prop :=
  (n = 0 -> Redis.live w ("access_nums_" ++ remote_addr) = None)
  /\ (0 < n ->
      redis w !! ("access_nums_" ++ remote_addr)
      = Some (Entry (Bytes.of_int n) (Some (clock w + LOGIN_ERROR_FORBID_TIME)))).

(** [GET /session] *)
Definition check_login : M response :=
  name <- session_get "name" ;;
  match name with
  | SNone | SStr "" | SInt 0 => ret (jsonify RET.SESSIONERR "false" [])
  | _ => ret (jsonify RET.OK "ture" [("name", name)])
  end.

(** [DELETE /session] *)
Definition logout : M response :=
  session_clear ;;;
  ret (jsonify RET.OK "ok" []).

(** ** Symbolic execution of the views *)

Ltac run :=
  cbv beta iota zeta delta
    [call bind ret return_ raise try_except try_except_else if_return
     store_call logger_error re_match decode int
     Redis.get Redis.delete Redis.incr Redis.expire
     Db.query_first Db.session_add Db.session_commit Db.session_rollback Db.id_of
     session_set session_get session_clear
     dict_get dict_get_default default from_option id fmap option_fmap option_map
     format_s str_ne str_of is_integrity_error check_password no_faults
     set_password user_check_password
     Redis.live all forallb truthy negb andb orb fst snd];
  cbn [record set_redis set_users set_session
       redis clock users pending session trace value expires
       user_id user_name user_mobile password_hash
       get_fault delete_fault incr_fault expire_fault query_fault commit_fault
       fmap option_fmap option_map app Db.flush].

(** The scrutinee that blocks the evaluation of a term: the innermost one
    along the chain of scrutinees, so that no case is split before the
    one that decides it. *)
Ltac blocker t :=
  lazymatch t with
  | context [match ?x with _ => _ end] => blocker x
  | _ => t
  end.

(** Evaluation of the control flow alone, the stores left folded: for
    proofs that walk every path of a view. *)
Ltac skim :=
  cbv beta iota zeta delta
    [call bind ret return_ raise try_except try_except_else if_return
     store_call logger_error re_match decode int
     Redis.get Redis.delete Redis.incr Redis.expire
     Db.query_first Db.session_add Db.session_commit Db.session_rollback Db.id_of
     session_set session_get session_clear
     dict_get dict_get_default default from_option id fmap option_fmap option_map
     format_s str_ne str_of is_integrity_error check_password no_faults
     set_password user_check_password
     all forallb truthy negb andb orb fst snd].

(** Evaluation by [cbv] alone, the stores unfolded. *)
Ltac crunch :=
  cbv beta iota zeta delta
    [call bind ret return_ raise try_except try_except_else if_return
     store_call logger_error re_match decode int
     Redis.get Redis.delete Redis.incr Redis.expire
     Db.query_first Db.session_add Db.session_commit Db.session_rollback Db.id_of
     session_set session_get session_clear
     dict_get dict_get_default default from_option id fmap option_fmap option_map
     format_s str_ne str_of is_integrity_error check_password no_faults
     set_password user_check_password
     Redis.live all forallb truthy negb andb orb fst snd
     record set_redis set_users set_session
     redis clock users pending session trace
     get_fault delete_fault incr_fault expire_fault query_fault commit_fault].

Ltac step_with tac :=
  lazymatch goal with
  | |- context [match ?x with _ => _ end] => let b := blocker x in destruct b eqn:?
  end; tac.

Ltac step :=
  lazymatch goal with
  | |- context [match ?x with _ => _ end] => let b := blocker x in destruct b eqn:?
  end; skim.

(** ** The format of a mobile number *)

(** What is left after a match also carries any text appended to the
    subject: no construct of the fragment looks at the end of the text. *)
Lemma remainders_app (r : Re.regex) (s t u : string) :
  In u (Re.remainders r s) -> In (u ++ t)%string (Re.remainders r (s ++ t)%string).
Proof using Type.
  revert s u. induction r as [c | p | r1 IH1 r2 IH2 | n r1 IH1]; intros s u; simpl.
  - destruct s as [| a s']; simpl; [intros [] |].
    destruct (Ascii.eqb a c); simpl; [| intros []]. intros [-> | []]. now left.
  - destruct s as [| a s']; simpl; [intros [] |].
    destruct (p a); simpl; [| intros []]. intros [-> | []]. now left.
  - rewrite !in_flat_map. intros (v & Hv & Hu). exists (v ++ t)%string. split; auto.
  - revert s u. induction n as [| n IHn]; intros s u; simpl.
    + intros [-> | []]. now left.
    + rewrite !in_flat_map. intros (v & Hv & Hu). exists (v ++ t)%string. split; auto.
Qed.

Lemma rematch_app (r : Re.regex) (s t : string) :
  Re.rematch r s = true -> Re.rematch r (s ++ t)%string = true.
Proof using Type.
  unfold Re.rematch. destruct (Re.remainders r s) as [| u us] eqn:E; [discriminate |].
  intros _. pose proof (remainders_app r s t u) as H. rewrite E in H.
  specialize (H (or_introl eq_refl)).
  destruct (Re.remainders r (s ++ t)%string); [destruct H | reflexivity].
Qed.

Lemma rematch_nonempty (s : string) :
  Re.rematch mobile_re s = true -> (s =? "")%string = false.
Proof. destruct s; [discriminate | reflexivity]. Qed.

(** ** Validation of the request *)


Lemma register_invalid_input (f : faults) (req_dict : gmap string pyval) (w : world) :
  all [dict_get req_dict "mobile"; dict_get req_dict "sms_code";
       dict_get req_dict "password"; dict_get req_dict "password2"] = false
  \/ invalid_mobile (dict_get req_dict "mobile") = true ->
  exists msg, call (register f req_dict) w = (inr (jsonify RET.PARAMERR msg []), w).
Proof.
  unfold register, invalid_mobile.
  generalize (dict_get req_dict "mobile") (dict_get req_dict "sms_code")
    (dict_get req_dict "password") (dict_get req_dict "password2").
  intros mobile sms_code password password2 H.
  destruct (all [mobile; sms_code; password; password2]) eqn:Hall; run; eauto.
  destruct H as [H | H]; [discriminate |].
  destruct mobile as [| s | z | b]; try discriminate. run.
  destruct (Re.rematch mobile_re s); [discriminate |]. run. eauto.
Qed.

Lemma login_invalid_input
    (f : faults) (req_dict : gmap string pyval) (remote_addr : string) (w : world) :
  all [dict_get_default req_dict "mobile" (PyStr ""); dict_get req_dict "password"] = false
  \/ invalid_mobile (dict_get_default req_dict "mobile" (PyStr "")) = true ->
  exists msg,
    call (login f req_dict remote_addr) w = (inr (jsonify RET.DATAERR msg []), w).
Proof.
  unfold login, invalid_mobile.
  generalize (dict_get_default req_dict "mobile" (PyStr "")) (dict_get req_dict "password").
  intros mobile password H.
  destruct (all [mobile; password]) eqn:Hall; run; eauto.
  destruct H as [H | H]; [discriminate |].
  destruct mobile as [| s | z | b]; try discriminate. run.
  destruct (Re.rematch mobile_re s); [discriminate |]. run. eauto.
Qed.

(** C5: on a request whose mobile or password is missing, or whose mobile
    fails the format, both views answer before any store is touched (the
    world is unchanged), but not with one code: [register] answers
    [RET.PARAMERR] and [login] answers [RET.DATAERR], the code it also uses
    for a wrong password. *)
Theorem invalid_input_errno_differs
    (f : faults) (req_dict : gmap string pyval) (remote_addr : string) (w : world) :
  truthy (dict_get req_dict "mobile") = false
  \/ truthy (dict_get req_dict "password") = false
  \/ invalid_mobile (dict_get req_dict "mobile") = true ->
  (exists msg, call (register f req_dict) w = (inr (jsonify RET.PARAMERR msg []), w))
  /\ (exists msg,
        call (login f req_dict remote_addr) w = (inr (jsonify RET.DATAERR msg []), w))
  /\ RET.DATAERR <> RET.PARAMERR.
Proof.
  intros H. split; [| split; [| discriminate]].
  - apply register_invalid_input. unfold all, forallb.
    destruct H as [-> | [-> | ->]]; auto.
    left. destruct (truthy _), (truthy _); reflexivity.
  - apply login_invalid_input. unfold all, forallb, dict_get_default, dict_get in *.
    destruct (req_dict !! "mobile") as [m |]; simpl in *.
    + destruct H as [-> | [-> | ->]]; auto.
      left. destruct (truthy m); reflexivity.
    + left. reflexivity.
Qed.

(** C10: the format check matches at the start of the text only.  A string
    that begins with text the pattern matches passes the check whatever
    follows, and neither view rejects it with its format error. *)
Theorem mobile_format_anchored_at_start_only
    (f : faults) (req_dict : gmap string pyval) (remote_addr : string) (w : world)
    (p t : string) :
  Re.rematch mobile_re p = true ->
  Re.rematch mobile_re (p ++ t) = true
  /\ (req_dict !! "mobile" = Some (PyStr (p ++ t)) ->
      (forall r w', call (register f req_dict) w = (inr r, w') ->
                    errmsg r <> "手机格式错误")
      /\ (forall r w', call (login f req_dict remote_addr) w = (inr r, w') ->
                       errmsg r <> "手机号格式不正确")).
Proof.
  intros Hp. pose proof (rematch_app _ _ t Hp) as Hpt.
  split; [exact Hpt |]. intros Hm. split; intros r w'.
  - unfold register. skim. rewrite Hm. skim. rewrite Hpt. skim.
    repeat step; try (intros [= <- <-]; discriminate); intros [=].
  - unfold login. skim. rewrite Hm. skim. rewrite Hpt. skim.
    repeat step; try (intros [= <- <-]; discriminate); intros [=].
Qed.

(** ** Registration and the verification code *)

Lemma register_form_lookup (mobile sms_code password password2 : string) :
  let d := register_form mobile sms_code password password2 in
  d !! "mobile" = Some (PyStr mobile) /\ d !! "sms_code" = Some (PyStr sms_code)
  /\ d !! "password" = Some (PyStr password) /\ d !! "password2" = Some (PyStr password2).
Proof. unfold register_form. repeat split; by simplify_map_eq. Qed.

Lemma login_form_lookup (mobile password : string) :
  let d := login_form mobile password in
  d !! "mobile" = Some (PyStr mobile) /\ d !! "password" = Some (PyStr password).
Proof. unfold login_form. repeat split; by simplify_map_eq. Qed.

Lemma eqb_empty (s : string) : s <> "" -> (s =? "")%string = false.
Proof. intros H. now apply String.eqb_neq. Qed.

Lemma py_ne_refl (x : pyval) : py_ne x x = false.
Proof using Type.
  destruct x; unfold py_ne, py_eq, number_of;
    rewrite ?String.eqb_refl, ?Z.eqb_refl; reflexivity.
Qed.

Lemma bool_decide_eq_refl `{EqDecision A} (x : A) : bool_decide (x = x) = true.
Proof. now apply bool_decide_eq_true_2. Qed.

(** Running a view along the path the facts [tac] rewrites with select. *)
Ltac exec_with tac :=
  run; repeat (progress tac; run).

Lemma live_at_delete (key : string) (r : gmap string entry) (now : Z) :
  Redis.live_at (delete key r) now key = None.
Proof. unfold Redis.live_at. now rewrite lookup_delete_eq. Qed.

Lemma codepoints_inj (s t : string) :
  Bytes.codepoints s = Bytes.codepoints t -> s = t.
Proof.
  unfold Bytes.codepoints. revert t.
  induction s as [| a s IH]; intros [| b t]; simpl; try discriminate; [reflexivity |].
  intros [= Hab Hst]. f_equal; [| now apply IH].
  rewrite <- (ascii_N_embedding a), <- (ascii_N_embedding b). now rewrite Hab.
Qed.

(** C1: with a live code under the subject key, registering with the
    right code succeeds and deletes the code, so the same submission
    repeated at once finds no code ([RET.NODATA]); a first submission with
    a wrong code is answered with the code-mismatch error and deletes the
    stored code as well: the delete comes right after the read, before the
    comparison. *)
Theorem verification_code_is_single_use
    (f : faults) (w : world) (mobile code wrong password : string) (en : entry) :
  Re.rematch mobile_re mobile = true -> code <> "" -> wrong <> "" -> password <> "" ->
  get_fault f = None -> delete_fault f = None -> commit_fault f = None ->
  pending w = [] -> existsb (Db.has_mobile mobile) (users w) = false ->
  Redis.live w ("sms_code_" ++ mobile) = Some en ->
  Bytes.decode (value en) = Some (Bytes.codepoints code) ->
  wrong <> code ->
  (exists w1 w2,
      call (register f (register_form mobile code password password)) w
        = (inr (jsonify RET.OK "注册成功" []), w1)
      /\ redis w1 !! ("sms_code_" ++ mobile) = None
      /\ call (register f (register_form mobile code password password)) w1
        = (inr (jsonify RET.NODATA "短信验证码失效" []), w2))
  /\ (exists w1,
        call (register f (register_form mobile wrong password password)) w
          = (inr (jsonify RET.DATAERR "短信验证码错误" []), w1)
        /\ redis w1 !! ("sms_code_" ++ mobile) = None
        /\ trace w1 = (trace w ++ [RedisGet ("sms_code_" ++ mobile);
                                   RedisDelete ("sms_code_" ++ mobile)])%list).
Proof.
  intros Hfmt Hcode Hwrong Hpw Hget Hdel Hcommit Hpend Hnew Hlive Hdec Hneq.
  destruct (register_form_lookup mobile code password password) as (Hm & Hc & Hp & Hp2).
  destruct (register_form_lookup mobile wrong password password) as (Hm' & Hc' & Hp' & Hp2').
  destruct w as [r c us ps s tr]. cbn [pending users trace] in *. subst ps.
  cbv [Redis.live redis clock] in Hlive.
  pose proof (rematch_nonempty _ Hfmt) as Hne. apply eqb_empty in Hcode, Hwrong, Hpw.
  assert (Hcmp : bool_decide (Bytes.codepoints code = Bytes.codepoints wrong) = false).
  { apply bool_decide_eq_false_2. intros H. apply codepoints_inj in H. congruence. }
  split.
  - eexists. eexists. split; [| split].
    + unfold register.
      exec_with ltac:(rewrite ?Hm, ?Hc, ?Hp, ?Hp2, ?Hne, ?Hcode, ?Hpw, ?Hfmt, ?Hget, ?Hdel,
                        ?Hcommit, ?Hlive, ?Hdec, ?Hnew,
                        ?py_ne_refl, ?bool_decide_eq_refl).
      reflexivity.
    + cbn [redis]. apply lookup_delete_eq.
    + unfold register. pose proof (live_at_delete ("sms_code_" ++ mobile) r c) as Hgone.
      exec_with ltac:(rewrite ?Hm, ?Hc, ?Hp, ?Hp2, ?Hne, ?Hcode, ?Hpw, ?Hfmt, ?Hget,
                        ?Hgone, ?py_ne_refl).
      reflexivity.
  - eexists. split; [| split].
    + unfold register.
      exec_with ltac:(rewrite ?Hm', ?Hc', ?Hp', ?Hp2', ?Hne, ?Hwrong, ?Hpw, ?Hfmt, ?Hget, ?Hdel,
                        ?Hlive, ?Hdec, ?Hcmp, ?py_ne_refl).
      reflexivity.
    + cbn [redis]. apply lookup_delete_eq.
    + cbn [trace]. now rewrite <- app_assoc.
Qed.

(** ** Failures of the stores *)

Lemma register_raises_no_store_error
    (f : faults) (req_dict : gmap string pyval) (w : world) (e : store_exn) :
  fst (call (register f req_dict) w) <> inl (StoreError e).
Proof. unfold register. skim. repeat step; discriminate. Qed.

Lemma login_raises_no_store_error
    (f : faults) (req_dict : gmap string pyval) (remote_addr : string) (w : world)
    (e : store_exn) :
  fst (call (login f req_dict remote_addr) w) <> inl (StoreError e).
Proof. unfold login. skim. repeat step; discriminate. Qed.

Lemma register_delete_fault_ignored
    (g d i x q c : option store_exn) (w : world) (mobile code password password2 : string) :
  fst (call (register (Faults g d i x q c)
               (register_form mobile code password password2)) w)
  = fst (call (register (Faults g None i x q c)
                 (register_form mobile code password password2)) w).
Proof.
  destruct d as [e |]; [| reflexivity].
  destruct (register_form_lookup mobile code password password2) as (Hm & Hc & Hp & Hp2).
  destruct w as [r ck us ps s tr].
  unfold register. crunch. rewrite Hm, Hc, Hp, Hp2. crunch.
  repeat step_with crunch; first [reflexivity | exfalso; cbn [fmap option_fmap option_map] in *; congruence].
Qed.

Ltac finish :=
  intros;
  first [ reflexivity | discriminate
        | exfalso; cbn [fmap option_fmap option_map] in *; congruence ].

Lemma register_get_fault
    (f : faults) (w : world) (mobile code password : string) (e : store_exn) :
  Re.rematch mobile_re mobile = true -> code <> "" -> password <> "" ->
  get_fault f = Some e ->
  fst (call (register f (register_form mobile code password password)) w)
  = inr (jsonify RET.DBERR "读取真实短信验证码异常" []).
Proof.
  intros Hfmt Hcode Hpw Hget.
  destruct (register_form_lookup mobile code password password) as (Hm & Hc & Hp & Hp2).
  pose proof (rematch_nonempty _ Hfmt) as Hne. apply eqb_empty in Hcode, Hpw.
  unfold register.
  exec_with ltac:(rewrite ?Hm, ?Hc, ?Hp, ?Hp2, ?Hne, ?Hcode, ?Hpw, ?Hfmt, ?Hget,
                    ?py_ne_refl).
  reflexivity.
Qed.

Lemma login_query_fault
    (f : faults) (w : world) (mobile password remote_addr : string) (e : store_exn) :
  Re.rematch mobile_re mobile = true -> password <> "" ->
  limiter_passes f w remote_addr = true ->
  query_fault f = Some e ->
  fst (call (login f (login_form mobile password) remote_addr) w)
  = inr (jsonify RET.DBERR "获取用户信息失败" []).
Proof.
  intros Hfmt Hpw Hpass Hq.
  destruct (login_form_lookup mobile password) as (Hm & Hp).
  pose proof (rematch_nonempty _ Hfmt) as Hne. apply eqb_empty in Hpw.
  destruct f as [g d i x q c], w as [r ck us ps s tr].
  cbn [query_fault] in Hq. subst q.
  unfold limiter_passes in Hpass. revert Hpass.
  unfold login. crunch. rewrite Hm, Hp. crunch. rewrite Hne, Hpw. crunch. rewrite Hfmt. crunch.
  repeat step_with crunch; finish.
Qed.

(** C4, as the code has it: no exception of a store escapes a view.  A
    failure to read the verification code in [register], or the user row
    in [login], is answered with [RET.DBERR]; a failure to delete the
    verification code is logged and ignored, so that [register] answers
    what it answers when the delete succeeds. *)
Theorem store_exceptions_are_caught
    (f : faults) (req_dict : gmap string pyval) (w : world)
    (mobile code password remote_addr : string) :
  Re.rematch mobile_re mobile = true -> code <> "" -> password <> "" ->
  (forall e, fst (call (register f req_dict) w) <> inl (StoreError e))
  /\ (forall e, fst (call (login f req_dict remote_addr) w) <> inl (StoreError e))
  /\ (forall e, get_fault f = Some e ->
        fst (call (register f (register_form mobile code password password)) w)
        = inr (jsonify RET.DBERR "读取真实短信验证码异常" []))
  /\ (forall e, query_fault f = Some e -> limiter_passes f w remote_addr = true ->
        fst (call (login f (login_form mobile password) remote_addr) w)
        = inr (jsonify RET.DBERR "获取用户信息失败" []))
  /\ fst (call (register f (register_form mobile code password password)) w)
     = fst (call (register
                    (Faults (get_fault f) None (incr_fault f) (expire_fault f)
                       (query_fault f) (commit_fault f))
                    (register_form mobile code password password)) w).
Proof.
  intros Hfmt Hcode Hpw. repeat split.
  - intros e. apply register_raises_no_store_error.
  - intros e. apply login_raises_no_store_error.
  - intros e. now apply register_get_fault.
  - intros e Hq Hpass. now apply login_query_fault with e.
  - destruct f. apply register_delete_fault_ignored.
Qed.

(** ** The decimal text of a counter *)

Local Abbreviation chars d := (list_ascii_of_string (NilEmpty.string_of_uint d)).

Lemma digits_chars (d : Decimal.uint) : Bytes.digits true (chars d) = Some d.
Proof. induction d; simpl; [reflexivity | rewrite IHd; reflexivity ..]. Qed.

Lemma digits_chars_nonnil (d : Decimal.uint) :
  d <> Decimal.Nil -> Bytes.digits false (chars d) = Some d.
Proof.
  destruct d; [congruence | intros _; simpl; rewrite digits_chars; reflexivity ..].
Qed.

Lemma chars_no_space (d : Decimal.uint) :
  Forall (fun a => Bytes.is_space a = false) (chars d).
Proof. induction d; simpl; constructor; auto. Qed.

Lemma lstrip_no_space (l : list ascii) :
  Forall (fun a => Bytes.is_space a = false) l -> Bytes.lstrip l = l.
Proof. destruct 1 as [| a l Ha _]; simpl; [reflexivity | now rewrite Ha]. Qed.

Lemma rstrip_no_space (l : list ascii) :
  Forall (fun a => Bytes.is_space a = false) l -> Bytes.rstrip l = l.
Proof.
  induction 1 as [| a l Ha _ IH]; simpl; [reflexivity |].
  rewrite IH, Ha. now destruct l.
Qed.

Lemma chars_head (d : Decimal.uint) :
  match chars d with
  | [] => d = Decimal.Nil
  | a :: _ => Ascii.eqb a "-" = false /\ Ascii.eqb a "+" = false
  end.
Proof. destruct d; simpl; auto. Qed.

Lemma pos_to_uint_nonnil (p : positive) : Pos.to_uint p <> Decimal.Nil.
Proof.
  intros H. pose proof (DecimalPos.Unsigned.of_to p) as E.
  rewrite H in E. discriminate.
Qed.

(** [int] reads back the text Redis writes for a counter. *)
Lemma to_int_of_int (z : Z) : 0 <= z -> Bytes.to_int (Bytes.of_int z) = Some z.
Proof.
  intros Hz. unfold Bytes.of_int.
  assert (exists d, d <> Decimal.Nil /\ Z.to_int z = Decimal.Pos d /\ Z.of_uint d = z)
    as (d & Hd & -> & Hval).
  { destruct z as [| p | p]; [| | lia].
    - exists (Decimal.D0 Decimal.Nil). repeat split. discriminate.
    - exists (Pos.to_uint p). split; [apply pos_to_uint_nonnil |]. split; [reflexivity |].
      exact (DecimalZ.of_to (Z.pos p)). }
  unfold Bytes.to_int, NilZero.string_of_int, NilZero.string_of_uint.
  replace (match d with Decimal.Nil => "0" | _ => NilEmpty.string_of_uint d end)
    with (NilEmpty.string_of_uint d) by (now destruct d).
  rewrite (lstrip_no_space _ (chars_no_space d)), (rstrip_no_space _ (chars_no_space d)).
  pose proof (chars_head d) as Hh. pose proof (digits_chars_nonnil d Hd) as Hdig.
  destruct (chars d) as [| a t]; [contradiction |].
  destruct Hh as [-> ->]. rewrite Hdig. simpl. now rewrite Hval.
Qed.

(** [INCR] reads back the text it wrote. *)
Lemma stored_int_of_int (z : Z) :
  Redis.int64 z = true -> Redis.stored_int (Bytes.of_int z) = Some z.
Proof.
  intros Hz. unfold Redis.stored_int, Bytes.of_int.
  rewrite NilZero.isi.
  - rewrite DecimalZ.of_to, String.eqb_refl, Hz. reflexivity.
  - destruct z; simpl; try discriminate. intros [= H]. now apply pos_to_uint_nonnil in H.
  - destruct z; simpl; try discriminate. intros [= H]. now apply pos_to_uint_nonnil in H.
Qed.

(** ** Login: the credential check *)

Lemma login_credentials_fail
    (f : faults) (w : world) (mobile password remote_addr : string) :
  Re.rematch mobile_re mobile = true -> password <> "" ->
  limiter_passes f w remote_addr = true -> query_fault f = None ->
  credentials_fail w mobile password = true ->
  fst (call (login f (login_form mobile password) remote_addr) w)
  = inr (jsonify RET.DATAERR "用户名或密码错误" []).
Proof.
  intros Hfmt Hpw Hpass Hq Hfail.
  destruct (login_form_lookup mobile password) as (Hm & Hp).
  pose proof (rematch_nonempty _ Hfmt) as Hne. apply eqb_empty in Hpw.
  destruct f as [g d i x q c], w as [r ck us ps s tr].
  cbn [query_fault] in Hq. subst q.
  unfold limiter_passes in Hpass. unfold credentials_fail in Hfail. revert Hpass Hfail.
  unfold login. crunch. rewrite Hm, Hp. crunch. rewrite Hne, Hpw. crunch. rewrite Hfmt. crunch.
  repeat step_with crunch; finish.
Qed.


(** C7: when the credential check fails the response is the
    invalid-credentials one whatever happens to [incr] and [expire]: their
    faults are arbitrary here, and so is the stored counter. *)
Theorem failure_to_record_does_not_mask_invalid_credentials
    (g d i x c : option store_exn) (w : world) (mobile password remote_addr : string) :
  Re.rematch mobile_re mobile = true -> password <> "" ->
  limiter_passes (Faults g d i x None c) w remote_addr = true ->
  credentials_fail w mobile password = true ->
  fst (call (login (Faults g d i x None c) (login_form mobile password) remote_addr) w)
  = inr (jsonify RET.DATAERR "用户名或密码错误" []).
Proof. intros. now apply login_credentials_fail. Qed.

(** A request the limiter lets through reaches the credential check: the user
    table is queried, and the response is not the too-many-attempts one. *)
Lemma login_reaches_credential_check
    (f : faults) (w : world) (mobile password remote_addr : string) :
  Re.rematch mobile_re mobile = true -> password <> "" ->
  limiter_passes f w remote_addr = true ->
  exists r w',
    call (login f (login_form mobile password) remote_addr) w = (inr r, w')
    /\ errno r <> RET.REQERR
    /\ In (DbQuery mobile) (trace w').
Proof using Type.
  clear generate_password_hash. intros Hfmt Hpw Hpass.
  destruct (login_form_lookup mobile password) as (Hm & Hp).
  pose proof (rematch_nonempty _ Hfmt) as Hne. apply eqb_empty in Hpw.
  destruct f as [g d i x q c], w as [r ck us ps s tr].
  unfold limiter_passes in Hpass. revert Hpass.
  unfold login. crunch. rewrite Hm, Hp. crunch. rewrite Hne, Hpw. crunch. rewrite Hfmt. crunch.
  repeat step_with crunch; intros; try congruence;
    (do 2 eexists; split; [reflexivity | split; [cbn [errno]; congruence |]]);
    cbn [trace]; rewrite ?in_app_iff; cbn [In]; intuition auto.
Qed.

(** C6: when the read of the attempt counter raises, the request is treated
    as not blocked: the response is not [RET.REQERR] and the view goes on
    to query the user table. *)
Theorem limiter_read_failure_is_fail_open
    (f : faults) (w : world) (mobile password remote_addr : string) (e : store_exn) :
  Re.rematch mobile_re mobile = true -> password <> "" ->
  get_fault f = Some e ->
  exists r w',
    call (login f (login_form mobile password) remote_addr) w = (inr r, w')
    /\ errno r <> RET.REQERR
    /\ In (DbQuery mobile) (trace w').
Proof.
  intros Hfmt Hpw Hget. apply login_reaches_credential_check; [assumption .. |].
  unfold limiter_passes. now rewrite Hget.
Qed.

(** C9: a login that succeeds leaves Redis as it was, the counter of the
    address included: among the calls it adds to the trace none writes to
    Redis, so a counter goes away only when its time to live runs out. *)
Theorem successful_login_keeps_the_counter
    (f : faults) (req_dict : gmap string pyval) (remote_addr : string) (w w' : world)
    (r : response) :
  call (login f req_dict remote_addr) w = (inr r, w') ->
  errno r = RET.OK ->
  redis w' = redis w
  /\ clock w' = clock w
  /\ Redis.live w' ("access_nums_" ++ remote_addr)
     = Redis.live w ("access_nums_" ++ remote_addr)
  /\ exists new, trace w' = (trace w ++ new)%list
                 /\ Forall (fun ev => writes_redis ev = false) new.
Proof.
  revert r w'.
  pose (P := fun (w0 w' : world) =>
    redis w' = redis w0 /\ clock w' = clock w0
    /\ Redis.live w' ("access_nums_" ++ remote_addr)
       = Redis.live w0 ("access_nums_" ++ remote_addr)
    /\ exists new, trace w' = (trace w0 ++ new)%list
                   /\ Forall (fun ev => writes_redis ev = false) new).
  change (forall r w', call (login f req_dict remote_addr) w = (inr r, w') ->
                       errno r = RET.OK -> P w w').
  destruct f as [g d i x q c], w as [rd ck us ps s tr]. unfold login. crunch.
  repeat step_with crunch;
    intros ? ? H Hok; inversion H; subst; cbn [errno] in Hok; try discriminate Hok;
    unfold P;
    (split; [reflexivity | split; [reflexivity | split; [reflexivity |]]]);
    cbn [trace]; rewrite <- ?app_assoc; eexists; (split; [reflexivity |]);
    repeat constructor.
Qed.

(** ** Login: the limiter *)

Lemma live_at_insert (key : string) (en : entry) (r : gmap string entry) (now : Z) :
  Redis.live_at (<[key := en]> r) now key
  = match expires en with
    | Some t => if t <=? now then None else Some en
    | None => Some en
    end.
Proof. unfold Redis.live_at. now rewrite lookup_insert_eq. Qed.

Lemma live_at_expires (key : string) (r : gmap string entry) (now : Z) (en : entry) :
  Redis.live_at r now key = Some en ->
  match expires en with Some t => (t <=? now) = false | None => True end.
Proof.
  unfold Redis.live_at. destruct (r !! key) as [en' |]; [| discriminate].
  destruct (expires en') as [t |] eqn:E.
  - destruct (t <=? now) eqn:Ht; [discriminate |]. intros [= <-]. now rewrite E.
  - intros [= <-]. now rewrite E.
Qed.

(** A counter at or above the limit: the request is rejected after the read
    of the counter, which is the only call made. *)
Lemma login_blocked
    (f : faults) (w : world) (mobile password remote_addr : string) (en : entry) (n : Z) :
  Re.rematch mobile_re mobile = true -> password <> "" ->
  get_fault f = None ->
  Redis.live w ("access_nums_" ++ remote_addr) = Some en ->
  Bytes.to_int (value en) = Some n ->
  LOGIN_ERROR_MAX_TIMES <= n ->
  call (login f (login_form mobile password) remote_addr) w
  = (inr (jsonify RET.REQERR "错误次数太多，请稍后重试" []),
     record (RedisGet ("access_nums_" ++ remote_addr)) w).
Proof.
  intros Hfmt Hpw Hget Hlive Hint Hmax.
  destruct (login_form_lookup mobile password) as (Hm & Hp).
  pose proof (rematch_nonempty _ Hfmt) as Hne. apply eqb_empty in Hpw.
  apply Z.leb_le in Hmax.
  destruct w as [r ck us ps s tr]. cbv [Redis.live redis clock] in Hlive.
  unfold login.
  exec_with ltac:(rewrite ?Hm, ?Hp, ?Hne, ?Hpw, ?Hfmt, ?Hget, ?Hlive, ?Hint, ?Hmax).
  reflexivity.
Qed.

(** One failed login moves the counter from [n] to [n + 1] and sets its
    time to live afresh. *)
Lemma login_failure_counts
    (w : world) (mobile password remote_addr : string) (n : Z) :
  0 < LOGIN_ERROR_FORBID_TIME -> 0 <= n -> n < LOGIN_ERROR_MAX_TIMES -> n + 1 < 2 ^ 63 ->
  Re.rematch mobile_re mobile = true -> password <> "" ->
  credentials_fail w mobile password = true ->
  (n = 0 -> Redis.live w ("access_nums_" ++ remote_addr) = None) ->
  (0 < n -> exists ex, Redis.live w ("access_nums_" ++ remote_addr)
                       = Some (Entry (Bytes.of_int n) ex)) ->
  exists w1,
    call (login no_faults (login_form mobile password) remote_addr) w
    = (inr (jsonify RET.DATAERR "用户名或密码错误" []), w1)
    /\ redis w1 !! ("access_nums_" ++ remote_addr)
       = Some (Entry (Bytes.of_int (n + 1)) (Some (clock w + LOGIN_ERROR_FORBID_TIME)))
    /\ clock w1 = clock w /\ users w1 = users w.
Proof.
  intros Hforbid Hn Hmax H63 Hfmt Hpw Hfail Hzero Hpos.
  destruct (login_form_lookup mobile password) as (Hm & Hp).
  pose proof (rematch_nonempty _ Hfmt) as Hne. apply eqb_empty in Hpw.
  assert (Hlt : (LOGIN_ERROR_MAX_TIMES <=? n) = false) by now apply Z.leb_gt.
  assert (Hft : (LOGIN_ERROR_FORBID_TIME <=? 0) = false) by now apply Z.leb_gt.
  assert (H64 : Redis.int64 n = true /\ Redis.int64 (n + 1) = true).
  { unfold Redis.int64. split; apply andb_true_intro; split;
      try apply Z.leb_le; try apply Z.ltb_lt; lia. }
  destruct H64 as [H64 H64'].
  pose proof (to_int_of_int n Hn) as Hint.
  pose proof (stored_int_of_int n H64) as Hstored.
  destruct w as [r ck us ps s tr]. cbv [Redis.live redis clock users] in *.
  unfold credentials_fail in Hfail. cbv [users check_password str_of] in Hfail.
  destruct (Z.eq_dec n 0) as [-> | Hnz].
  - specialize (Hzero eq_refl). clear Hpos.
    destruct (find (Db.has_mobile mobile) us) as [u |] eqn:Hfind.
    + apply negb_true_iff in Hfail.
      eexists. split; [| split; [| split]].
      * unfold login.
        exec_with ltac:(rewrite ?Hm, ?Hp, ?Hne, ?Hpw, ?Hfmt, ?Hzero, ?Hfind, ?Hfail, ?Hft,
                          ?live_at_insert).
        reflexivity.
      * cbn [redis]. now rewrite lookup_insert_eq.
      * reflexivity.
      * reflexivity.
    + eexists. split; [| split; [| split]].
      * unfold login.
        exec_with ltac:(rewrite ?Hm, ?Hp, ?Hne, ?Hpw, ?Hfmt, ?Hzero, ?Hfind, ?Hft,
                          ?live_at_insert).
        reflexivity.
      * cbn [redis]. now rewrite lookup_insert_eq.
      * reflexivity.
      * reflexivity.
  - destruct Hpos as [ex Hlive]; [lia |]. clear Hzero.
    pose proof (live_at_expires _ _ _ _ Hlive) as Hex. cbn [expires] in Hex.
    assert (Hkeep : forall v,
      Redis.live_at (<[("access_nums_" ++ remote_addr)%string := Entry v ex]> r) ck
        ("access_nums_" ++ remote_addr) = Some (Entry v ex)).
    { intros v. rewrite live_at_insert. cbn [expires].
      destruct ex as [t |]; [now rewrite Hex | reflexivity]. }
    destruct (find (Db.has_mobile mobile) us) as [u |] eqn:Hfind.
    + apply negb_true_iff in Hfail.
      eexists. split; [| split; [| split]].
      * unfold login.
        exec_with ltac:(rewrite ?Hm, ?Hp, ?Hne, ?Hpw, ?Hfmt, ?Hlive, ?Hint, ?Hlt, ?Hfind,
                          ?Hfail, ?Hstored, ?H64', ?Hkeep, ?Hft).
        reflexivity.
      * cbn [redis]. now rewrite lookup_insert_eq.
      * reflexivity.
      * reflexivity.
    + eexists. split; [| split; [| split]].
      * unfold login.
        exec_with ltac:(rewrite ?Hm, ?Hp, ?Hne, ?Hpw, ?Hfmt, ?Hlive, ?Hint, ?Hlt, ?Hfind,
                          ?Hstored, ?H64', ?Hkeep, ?Hft).
        reflexivity.
      * cbn [redis]. now rewrite lookup_insert_eq.
      * reflexivity.
      * reflexivity.
Qed.

Lemma live_elapse_none (w : world) (key : string) (d : Z) :
  0 <= d -> Redis.live w key = None -> Redis.live (elapse d w) key = None.
Proof.
  destruct w as [r ck us ps s tr]. cbv [Redis.live elapse set_clock redis clock].
  unfold Redis.live_at. intros Hd.
  destruct (r !! key) as [en |]; [| reflexivity].
  destruct (expires en) as [t |]; [| discriminate].
  destruct (t <=? ck) eqn:E; [| discriminate]. intros _.
  apply Z.leb_le in E. assert (H : (t <=? ck + d) = true) by (apply Z.leb_le; lia).
  now rewrite H.
Qed.

Lemma live_elapse_counter (w : world) (key v : string) (ttl d : Z) :
  redis w !! key = Some (Entry v (Some (clock w + ttl))) ->
  Redis.live (elapse d w) key
  = if ttl <=? d then None else Some (Entry v (Some (clock w + ttl))).
Proof.
  destruct w as [r ck us ps s tr]. cbv [Redis.live elapse set_clock redis clock].
  unfold Redis.live_at. intros ->. cbn [expires].
  destruct (ttl <=? d) eqn:E.
  - apply Z.leb_le in E. assert (H : (ck + ttl <=? ck + d) = true) by (apply Z.leb_le; lia).
    now rewrite H.
  - apply Z.leb_gt in E. assert (H : (ck + ttl <=? ck + d) = false) by (apply Z.leb_gt; lia).
    now rewrite H.
Qed.

(** After [k] failed logins in a row the counter holds [k]. *)
Lemma failed_logins_counted (remote_addr : string) (attempts : list (Z * string * string)) :
  0 < LOGIN_ERROR_FORBID_TIME -> LOGIN_ERROR_MAX_TIMES < 2 ^ 63 ->
  forall (w : world) (n : Z),
    0 <= n -> n + Z.of_nat (length attempts) <= LOGIN_ERROR_MAX_TIMES ->
    counted w remote_addr n ->
    Forall (failing_attempt (users w)) attempts ->
    counted (failed_logins attempts remote_addr w) remote_addr (n + Z.of_nat (length attempts))
    /\ users (failed_logins attempts remote_addr w) = users w.
Proof.
  intros Hft H63. induction attempts as [| [[d m] p] rest IH]; intros w n Hn Hle Hcnt Hall.
  - cbn [failed_logins length Z.of_nat]. rewrite Z.add_0_r. auto.
  - cbn [length] in Hle. rewrite Nat2Z.inj_succ in Hle.
    inversion Hall as [| a l Ha Hrest]; subst.
    unfold failing_attempt in Ha. destruct Ha as (Hd & Hfmt & Hpw & Hfail).
    destruct Hcnt as [Hzero Hpos].
    destruct (login_failure_counts (elapse d w) m p remote_addr n)
      as (w1 & Hcall & Hredis & Hclock & Husers); try assumption; try lia.
    + unfold credentials_fail. destruct w; exact Hfail.
    + intros ->. apply live_elapse_none; [lia | auto].
    + intros Hp. eexists. rewrite (live_elapse_counter _ _ _ _ _ (Hpos Hp)).
      assert (H : (LOGIN_ERROR_FORBID_TIME <=? d) = false) by (apply Z.leb_gt; lia).
      rewrite H. reflexivity.
    + cbn [failed_logins]. rewrite Hcall. cbn [snd].
      assert (Hus : users w1 = users w) by (rewrite Husers; now destruct w).
      destruct (IH w1 (n + 1)) as [Hc Hu]; try lia.
      * split; [lia |]. intros _. rewrite Hredis, Hclock. reflexivity.
      * now rewrite Hus.
      * split; [| now rewrite Hu].
        cbn [length]. rewrite Nat2Z.inj_succ.
        replace (n + Z.succ (Z.of_nat (length rest))) with (n + 1 + Z.of_nat (length rest)) by lia.
        exact Hc.
Qed.

Lemma counted_below_limit_passes
    (f : faults) (w : world) (remote_addr : string) (k d : Z) :
  0 <= k -> k < LOGIN_ERROR_MAX_TIMES -> 0 <= d ->
  counted w remote_addr k ->
  limiter_passes f (elapse d w) remote_addr = true.
Proof.
  intros Hk Hlt Hd [Hzero Hpos]. unfold limiter_passes.
  destruct (get_fault f); [reflexivity |].
  destruct (Z.eq_dec k 0) as [-> | Hnz].
  - rewrite live_elapse_none; auto.
  - rewrite (live_elapse_counter _ _ _ _ _ (Hpos ltac:(lia))).
    destruct (LOGIN_ERROR_FORBID_TIME <=? d); [reflexivity |].
    cbn [value]. rewrite to_int_of_int by lia.
    apply negb_true_iff. now apply Z.leb_gt.
Qed.

Lemma counted_expires (w : world) (remote_addr : string) (k d : Z) :
  LOGIN_ERROR_FORBID_TIME <= d -> 0 <= d -> 0 <= k ->
  counted w remote_addr k ->
  Redis.live (elapse d w) ("access_nums_" ++ remote_addr) = None.
Proof.
  intros Hd Hd0 Hk [Hzero Hpos].
  destruct (Z.eq_dec k 0) as [-> | Hnz].
  - apply live_elapse_none; auto.
  - rewrite (live_elapse_counter _ _ _ _ _ (Hpos ltac:(lia))).
    assert (H : (LOGIN_ERROR_FORBID_TIME <=? d) = true) by now apply Z.leb_le.
    now rewrite H.
Qed.

(** C3: a counter whose value is at least [LOGIN_ERROR_MAX_TIMES] gets the
    too-many-attempts response after the read of the counter alone, the user
    table untouched.  That is the case after exactly that many failed
    logins in a row, the first of which created the counter; after fewer
    failures, or once the time to live has run out and the counter is gone,
    the request reaches the credential check. *)
Theorem limiter_blocks_at_max_attempts
    (f : faults) (w : world) (attempts : list (Z * string * string))
    (mobile password remote_addr : string) (delay : Z) :
  0 < LOGIN_ERROR_FORBID_TIME ->
  0 < LOGIN_ERROR_MAX_TIMES -> LOGIN_ERROR_MAX_TIMES < 2 ^ 63 ->
  Re.rematch mobile_re mobile = true -> password <> "" ->
  get_fault f = None ->
  Redis.live w ("access_nums_" ++ remote_addr) = None ->
  Forall (failing_attempt (users w)) attempts ->
  0 <= delay ->
  let key := "access_nums_" ++ remote_addr in
  let w' := elapse delay (failed_logins attempts remote_addr w) in
  let reaches_check :=
    exists r w'',
      call (login f (login_form mobile password) remote_addr) w' = (inr r, w'')
      /\ errno r <> RET.REQERR /\ In (DbQuery mobile) (trace w'') in
  (forall w0 en n,
      Redis.live w0 key = Some en -> Bytes.to_int (value en) = Some n ->
      LOGIN_ERROR_MAX_TIMES <= n ->
      call (login f (login_form mobile password) remote_addr) w0
      = (inr (jsonify RET.REQERR "错误次数太多，请稍后重试" []), record (RedisGet key) w0))
  /\ (Z.of_nat (length attempts) = LOGIN_ERROR_MAX_TIMES -> delay < LOGIN_ERROR_FORBID_TIME ->
      call (login f (login_form mobile password) remote_addr) w'
      = (inr (jsonify RET.REQERR "错误次数太多，请稍后重试" []), record (RedisGet key) w'))
  /\ (Z.of_nat (length attempts) < LOGIN_ERROR_MAX_TIMES -> reaches_check)
  /\ (Z.of_nat (length attempts) <= LOGIN_ERROR_MAX_TIMES ->
      LOGIN_ERROR_FORBID_TIME <= delay ->
      Redis.live w' key = None /\ reaches_check).
Proof.
  intros Hft Hmax H63 Hfmt Hpw Hget Hnone Hall Hdelay key w' reaches_check.
  assert (Hblocked : forall w0 en n,
    Redis.live w0 key = Some en -> Bytes.to_int (value en) = Some n ->
    LOGIN_ERROR_MAX_TIMES <= n ->
    call (login f (login_form mobile password) remote_addr) w0
    = (inr (jsonify RET.REQERR "错误次数太多，请稍后重试" []), record (RedisGet key) w0)).
  { intros w0 en n Hlive Hint Hle. now apply login_blocked with en n. }
  assert (Hstart : counted w remote_addr 0).
  { split; [auto | lia]. }
  assert (Hcounted : Z.of_nat (length attempts) <= LOGIN_ERROR_MAX_TIMES ->
    counted (failed_logins attempts remote_addr w) remote_addr (Z.of_nat (length attempts))).
  { intros Hle.
    destruct (failed_logins_counted remote_addr attempts Hft H63 w 0) as [Hc _];
      auto; lia. }
  split; [exact Hblocked |]. split; [| split].
  - intros Hlen Hlt. destruct (Hcounted ltac:(lia)) as [_ Hpos].
    rewrite Hlen in Hpos. specialize (Hpos Hmax).
    apply Hblocked with (Entry (Bytes.of_int LOGIN_ERROR_MAX_TIMES)
                           (Some (clock (failed_logins attempts remote_addr w)
                                  + LOGIN_ERROR_FORBID_TIME)))
                        LOGIN_ERROR_MAX_TIMES.
    + subst w' key. rewrite (live_elapse_counter _ _ _ _ _ Hpos).
      assert (H : (LOGIN_ERROR_FORBID_TIME <=? delay) = false) by (apply Z.leb_gt; lia).
      now rewrite H.
    + cbn [value]. apply to_int_of_int. lia.
    + lia.
  - intros Hlen. apply login_reaches_credential_check; [assumption .. |].
    subst w'. apply counted_below_limit_passes with (Z.of_nat (length attempts));
      [lia | lia | lia |]. apply Hcounted. lia.
  - intros Hlen Hexp.
    assert (Hgone : Redis.live w' key = None).
    { subst w' key. apply counted_expires with (Z.of_nat (length attempts));
        [lia | lia | lia |]. now apply Hcounted. }
    split; [exact Hgone |].
    apply login_reaches_credential_check; [assumption .. |].
    unfold limiter_passes. rewrite Hget. fold key. now rewrite Hgone.
Qed.

(** ** What the views leave alone *)

(** Walking every path of a view for a statement about the first world, the
    outcome and the final world: the statement is kept folded under the name
    [P] while the view is evaluated, and [leaf] proves it on each path. *)
Ltac fold_post w w' res :=
  pattern w, w', res;
  match goal with |- ?F w w' res => set (P := F) end.

Ltac every_path leaf :=
  repeat step_with crunch;
  intros ? ? Hcall; inversion Hcall; subst;
  match goal with P := _ |- _ => subst P end;
  cbv beta; cbn [clock redis session users pending trace]; leaf.

Lemma register_effects (f : faults) (req_dict : gmap string pyval) (w w' : world)
    (res : exn + response) :
  call (register f req_dict) w = (res, w') ->
  clock w' = clock w
  /\ (forall k, k <> format_s "sms_code_" (dict_get req_dict "mobile") ->
                redis w' !! k = redis w !! k)
  /\ ((forall msg, res <> inr (jsonify RET.OK msg [])) ->
      session w' = session w /\ users w' = users w)
  /\ (pending w = [] -> pending w' = []).
Proof.
  intros Hcall. unfold register in Hcall.
  remember (dict_get req_dict "mobile") as mobile eqn:Hmobile.
  remember (dict_get req_dict "sms_code") as sms_code eqn:Hsms.
  remember (dict_get req_dict "password") as password eqn:Hpassword.
  remember (dict_get req_dict "password2") as password2 eqn:Hpassword2.
  clear Hmobile Hsms Hpassword Hpassword2.
  fold_post w w' res. revert res w' Hcall.
  destruct f as [g d i x q c], w as [rd ck us ps s tr].
  destruct mobile as [| mobile | z | b]; crunch;
    every_path ltac:(repeat split; auto).
  all: try (intros k Hk; cbv [format_s] in Hk; rewrite ?lookup_delete_ne by congruence;
            reflexivity).
  all: exfalso; match goal with H : forall msg : string, _ |- _ => eapply H; reflexivity end.
Qed.

Lemma login_effects
    (f : faults) (req_dict : gmap string pyval) (remote_addr : string) (w w' : world)
    (res : exn + response) :
  call (login f req_dict remote_addr) w = (res, w') ->
  clock w' = clock w
  /\ (forall k, k <> ("access_nums_" ++ remote_addr)%string -> redis w' !! k = redis w !! k)
  /\ users w' = users w /\ pending w' = pending w
  /\ ((forall msg, res <> inr (jsonify RET.OK msg [])) -> session w' = session w)
  /\ (forall r, res = inr r -> errno r = RET.REQERR ->
                w' = record (RedisGet ("access_nums_" ++ remote_addr)) w).
Proof.
  intros Hcall. unfold login in Hcall.
  fold_post w w' res. revert res w' Hcall.
  destruct f as [g d i x q c], w as [rd ck us ps s tr]. crunch.
  every_path ltac:(repeat split; auto).
  all: try (intros k Hk;
            repeat first [ rewrite lookup_delete_ne by congruence
                         | rewrite lookup_insert_ne by congruence ];
            reflexivity).
  all: try (intros r0 [= <-] Herr; cbn [errno] in Herr; first [discriminate Herr | reflexivity]).
  all: intros Hno; exfalso; eapply Hno; reflexivity.
Qed.

Lemma code_key_is_no_counter_key (x : pyval) (remote_addr : string) :
  ("access_nums_" ++ remote_addr)%string <> format_s "sms_code_" x.
Proof. destruct x; cbv [format_s]; simpl; discriminate. Qed.

Lemma counter_key_inj (a b : string) :
  ("access_nums_" ++ a)%string = ("access_nums_" ++ b)%string -> a = b.
Proof. simpl. intros H. now injection H. Qed.

(** X1: [register] writes to Redis under the key of the submitted mobile
    only: every other key, the attempt counter of any address among them,
    keeps its entry, and the clock is not touched. *)
Theorem register_changes_only_its_code_key
    (f : faults) (req_dict : gmap string pyval) (w : world) (k remote_addr : string) :
  let w' := snd (call (register f req_dict) w) in
  (k <> format_s "sms_code_" (dict_get req_dict "mobile") -> redis w' !! k = redis w !! k)
  /\ redis w' !! ("access_nums_" ++ remote_addr)%string
     = redis w !! ("access_nums_" ++ remote_addr)%string
  /\ Redis.live w' ("access_nums_" ++ remote_addr) = Redis.live w ("access_nums_" ++ remote_addr).
Proof.
  intros w'. subst w'.
  destruct (call (register f req_dict) w) as [res w'] eqn:Hcall. cbn [snd].
  destruct (register_effects _ _ _ _ _ Hcall) as (Hclock & Hframe & _).
  assert (Hkey := Hframe _ (code_key_is_no_counter_key (dict_get req_dict "mobile") remote_addr)).
  repeat split; auto.
  unfold Redis.live, Redis.live_at. now rewrite Hclock, Hkey.
Qed.

(** X2: unless [register] answers [RET.OK], the session and the user table
    are as they were, whatever failed and whatever exception escaped; and no
    row is left pending. *)
Theorem register_failure_leaves_account_state
    (f : faults) (req_dict : gmap string pyval) (w w' : world) (res : exn + response) :
  call (register f req_dict) w = (res, w') ->
  (forall msg, res <> inr (jsonify RET.OK msg [])) ->
  pending w = [] ->
  session w' = session w /\ users w' = users w /\ pending w' = [].
Proof.
  intros Hcall Hno Hpend.
  destruct (register_effects _ _ _ _ _ Hcall) as (_ & _ & Hacc & Hp).
  destruct (Hacc Hno). auto.
Qed.

(** X3: [login] writes to Redis under the counter of the calling address
    only: the counters of the other addresses and every verification code
    keep their entries. *)
Theorem login_changes_only_its_counter_key
    (f : faults) (req_dict : gmap string pyval) (remote_addr other mobile : string) (w : world) :
  let w' := snd (call (login f req_dict remote_addr) w) in
  (other <> remote_addr ->
   Redis.live w' ("access_nums_" ++ other) = Redis.live w ("access_nums_" ++ other))
  /\ Redis.live w' ("sms_code_" ++ mobile) = Redis.live w ("sms_code_" ++ mobile).
Proof.
  intros w'. subst w'.
  destruct (call (login f req_dict remote_addr) w) as [res w'] eqn:Hcall. cbn [snd].
  destruct (login_effects _ _ _ _ _ _ Hcall) as (Hclock & Hframe & _).
  unfold Redis.live, Redis.live_at. rewrite Hclock. split.
  - intros Hne. rewrite Hframe; [reflexivity |].
    intros H. apply counter_key_inj in H. congruence.
  - rewrite Hframe; [reflexivity |].
    intros H. exact (code_key_is_no_counter_key (PyStr mobile) remote_addr (eq_sym H)).
Qed.

(** X4: [login] never writes to the user table, and it leaves the session as
    it was unless it answers [RET.OK]. *)
Theorem login_never_writes_users
    (f : faults) (req_dict : gmap string pyval) (remote_addr : string) (w w' : world)
    (res : exn + response) :
  call (login f req_dict remote_addr) w = (res, w') ->
  users w' = users w /\ pending w' = pending w
  /\ ((forall msg, res <> inr (jsonify RET.OK msg [])) -> session w' = session w).
Proof.
  intros Hcall.
  destruct (login_effects _ _ _ _ _ _ Hcall) as (_ & _ & Hu & Hp & Hs & _). auto.
Qed.

(** X5: a login that is answered [RET.REQERR] has made one call, the read
    of the counter: it neither counts as a failure nor renews the time to
    live of the counter. *)
Theorem login_rejection_writes_nothing
    (f : faults) (req_dict : gmap string pyval) (remote_addr : string) (w w' : world)
    (r : response) :
  call (login f req_dict remote_addr) w = (inr r, w') ->
  errno r = RET.REQERR ->
  w' = record (RedisGet ("access_nums_" ++ remote_addr)) w.
Proof.
  intros Hcall Herr.
  destruct (login_effects _ _ _ _ _ _ Hcall) as (_ & _ & _ & _ & _ & Hrej). eauto.
Qed.

(** ** Accounts and sessions *)

Lemma check_login_named (w : world) (name : string) :
  session w !! "name" = Some (SStr name) -> name <> "" ->
  call check_login w = (inr (jsonify RET.OK "ture" [("name", SStr name)]), w).
Proof.
  intros Hs Hne. unfold check_login. run. rewrite Hs. run.
  destruct name; [congruence | reflexivity].
Qed.

Lemma check_login_unnamed (w : world) :
  session w !! "name" = None \/ session w !! "name" = Some (SStr "") ->
  call check_login w = (inr (jsonify RET.SESSIONERR "false" []), w).
Proof.
  intros [Hs | Hs]; unfold check_login; run; rewrite Hs; reflexivity.
Qed.

Lemma find_fresh_row (mobile : string) (us : list User) (u : User) :
  existsb (Db.has_mobile mobile) us = false -> user_mobile u = mobile ->
  find (Db.has_mobile mobile) (us ++ [u]) = Some u.
Proof.
  intros Hnew Hu. induction us as [| v us IH]; simpl in *.
  - unfold Db.has_mobile. now rewrite Hu, String.eqb_refl.
  - apply orb_false_elim in Hnew as [Hv Hus]. rewrite Hv. auto.
Qed.

(** The world a successful registration leaves. *)
Lemma register_success
    (f : faults) (w : world) (mobile code password : string) (en : entry) :
  Re.rematch mobile_re mobile = true -> code <> "" -> password <> "" ->
  get_fault f = None -> delete_fault f = None -> commit_fault f = None ->
  pending w = [] -> existsb (Db.has_mobile mobile) (users w) = false ->
  Redis.live w ("sms_code_" ++ mobile) = Some en ->
  Bytes.decode (value en) = Some (Bytes.codepoints code) ->
  call (register f (register_form mobile code password password)) w
  = (inr (jsonify RET.OK "注册成功" []),
     World (delete ("sms_code_" ++ mobile)%string (redis w)) (clock w)
       (users w ++ [mkUser (Db.next_id (users w)) mobile mobile
                      (generate_password_hash password)])
       []
       (<["user_id" := SInt (Db.next_id (users w))]>
          (<["mobile" := SStr mobile]> (<["name" := SStr mobile]> (session w))))
       (trace w ++ [RedisGet ("sms_code_" ++ mobile); RedisDelete ("sms_code_" ++ mobile);
                    DbAdd mobile; DbCommit])).
Proof.
  intros Hfmt Hcode Hpw Hget Hdel Hcommit Hpend Hnew Hlive Hdec.
  destruct (register_form_lookup mobile code password password) as (Hm & Hc & Hp & Hp2).
  destruct w as [r c us ps s tr]. cbn [pending users trace redis clock session] in *. subst ps.
  cbv [Redis.live redis clock] in Hlive.
  pose proof (rematch_nonempty _ Hfmt) as Hne. apply eqb_empty in Hcode, Hpw.
  pose proof (find_fresh_row mobile us
                (mkUser (Db.next_id us) mobile mobile (generate_password_hash password))
                Hnew eq_refl) as Hfind.
  unfold register.
  exec_with ltac:(rewrite ?Hm, ?Hc, ?Hp, ?Hp2, ?Hne, ?Hcode, ?Hpw, ?Hfmt, ?Hget, ?Hdel,
                    ?Hcommit, ?Hlive, ?Hdec, ?Hnew, ?Hfind,
                    ?py_ne_refl, ?bool_decide_eq_refl).
  rewrite <- !app_assoc. reflexivity.
Qed.

(** X6: a successful registration adds one row to the user table, with the
    mobile as name and as mobile and the hash of the password, and opens
    the session of that row: the session holds the mobile under "name" and
    "mobile" and the new primary key under "user_id", so that [check_login]
    at once reports the mobile as the name of the user. *)
Theorem register_creates_account_and_session
    (f : faults) (w : world) (mobile code password : string) (en : entry) :
  Re.rematch mobile_re mobile = true -> code <> "" -> password <> "" ->
  get_fault f = None -> delete_fault f = None -> commit_fault f = None ->
  pending w = [] -> existsb (Db.has_mobile mobile) (users w) = false ->
  Redis.live w ("sms_code_" ++ mobile) = Some en ->
  Bytes.decode (value en) = Some (Bytes.codepoints code) ->
  let w1 := snd (call (register f (register_form mobile code password password)) w) in
  users w1 = (users w ++ [mkUser (Db.next_id (users w)) mobile mobile
                            (generate_password_hash password)])%list
  /\ session w1 !! "name" = Some (SStr mobile)
  /\ session w1 !! "mobile" = Some (SStr mobile)
  /\ session w1 !! "user_id" = Some (SInt (Db.next_id (users w)))
  /\ call check_login w1 = (inr (jsonify RET.OK "ture" [("name", SStr mobile)]), w1).
Proof.
  intros Hfmt Hcode Hpw Hget Hdel Hcommit Hpend Hnew Hlive Hdec w1. subst w1.
  rewrite (register_success f w mobile code password en) by assumption.
  cbn [snd users session].
  assert (Hname : (<["user_id" := SInt (Db.next_id (users w))]>
                     (<["mobile" := SStr mobile]> (<["name" := SStr mobile]> (session w))))
                  !! "name" = Some (SStr mobile)) by (by simplify_map_eq).
  repeat split; try (by simplify_map_eq).
  apply check_login_named; [exact Hname |].
  intros ->. discriminate Hfmt.
Qed.

(** X7: registration and login agree on the password.  After a successful
    registration a login with the same mobile and password from an address
    without a counter succeeds, provided the hash primitive accepts the
    password against its own hash; the session then holds the row that the
    registration created. *)
Theorem register_then_login
    (f : faults) (w : world) (mobile code password remote_addr : string) (en : entry) :
  Re.rematch mobile_re mobile = true -> code <> "" -> password <> "" ->
  get_fault f = None -> delete_fault f = None -> commit_fault f = None ->
  pending w = [] -> existsb (Db.has_mobile mobile) (users w) = false ->
  Redis.live w ("sms_code_" ++ mobile) = Some en ->
  Bytes.decode (value en) = Some (Bytes.codepoints code) ->
  Redis.live w ("access_nums_" ++ remote_addr) = None ->
  check_password_hash (generate_password_hash password) password = true ->
  let w1 := snd (call (register f (register_form mobile code password password)) w) in
  exists w2,
    call (login no_faults (login_form mobile password) remote_addr) w1
    = (inr (jsonify RET.OK "登陆成功" []), w2)
    /\ session w2 !! "name" = Some (SStr mobile)
    /\ session w2 !! "user_id" = Some (SInt (Db.next_id (users w))).
Proof.
  intros Hfmt Hcode Hpw Hget Hdel Hcommit Hpend Hnew Hlive Hdec Hnone Hhash w1. subst w1.
  rewrite (register_success f w mobile code password en) by assumption. cbn [snd].
  destruct (login_form_lookup mobile password) as (Hm & Hp).
  pose proof (rematch_nonempty _ Hfmt) as Hne. apply eqb_empty in Hpw.
  destruct w as [r c us ps s tr]. cbn [pending users trace redis clock session] in *.
  cbv [Redis.live redis clock] in Hnone.
  assert (Hnone' : Redis.live_at (delete ("sms_code_" ++ mobile)%string r) c
                     ("access_nums_" ++ remote_addr) = None).
  { unfold Redis.live_at in *. rewrite lookup_delete_ne; [exact Hnone |].
    intros H. exact (code_key_is_no_counter_key (PyStr mobile) remote_addr (eq_sym H)). }
  pose proof (find_fresh_row mobile us
                (mkUser (Db.next_id us) mobile mobile (generate_password_hash password))
                Hnew eq_refl) as Hfind.
  eexists. split; [| split].
  - unfold login.
    exec_with ltac:(rewrite ?Hm, ?Hp, ?Hne, ?Hpw, ?Hfmt, ?Hnone', ?Hfind, ?Hhash).
    reflexivity.
  - cbn [session]. by simplify_map_eq.
  - cbn [session]. by simplify_map_eq.
Qed.

Lemma login_success
    (f : faults) (w : world) (mobile password remote_addr : string) (u : User) :
  Re.rematch mobile_re mobile = true -> password <> "" ->
  limiter_passes f w remote_addr = true -> query_fault f = None ->
  find (Db.has_mobile mobile) (users w) = Some u ->
  check_password u (PyStr password) = true ->
  exists w',
    call (login f (login_form mobile password) remote_addr) w
    = (inr (jsonify RET.OK "登陆成功" []), w')
    /\ session w'
       = <["user_id" := SInt (user_id u)]>
           (<["mobile" := SStr (user_mobile u)]>
              (<["name" := SStr (user_name u)]> (session w))).
Proof using Type.
  clear generate_password_hash.
  intros Hfmt Hpw Hpass Hq Hfind Hcheck.
  destruct (login_form_lookup mobile password) as (Hm & Hp).
  pose proof (rematch_nonempty _ Hfmt) as Hne. apply eqb_empty in Hpw.
  destruct f as [g d i x q c], w as [r ck us ps s tr].
  cbn [query_fault users] in *. subst q.
  unfold check_password in Hcheck. cbn [str_of] in Hcheck.
  unfold limiter_passes in Hpass. revert Hpass.
  unfold login. crunch. rewrite Hm, Hp. crunch. rewrite Hne, Hpw. crunch. rewrite Hfmt. crunch.
  repeat step_with crunch; intros; try congruence; simplify_eq; try congruence;
    (eexists; split; reflexivity).
Qed.

(** X8: a successful login writes the name, the mobile and the primary key
    of the row into the session and keeps the other keys of the session.
    [check_login] then reports the name of the row, unless that name is
    empty: with an empty name it reports no session although the login
    succeeded. *)
Theorem login_establishes_session
    (f : faults) (w : world) (mobile password remote_addr : string) (u : User) :
  Re.rematch mobile_re mobile = true -> password <> "" ->
  limiter_passes f w remote_addr = true -> query_fault f = None ->
  find (Db.has_mobile mobile) (users w) = Some u ->
  check_password u (PyStr password) = true ->
  exists w',
    call (login f (login_form mobile password) remote_addr) w
    = (inr (jsonify RET.OK "登陆成功" []), w')
    /\ session w' !! "name" = Some (SStr (user_name u))
    /\ session w' !! "mobile" = Some (SStr (user_mobile u))
    /\ session w' !! "user_id" = Some (SInt (user_id u))
    /\ (forall k, k <> "name" -> k <> "mobile" -> k <> "user_id" ->
                  session w' !! k = session w !! k)
    /\ (user_name u <> "" ->
        call check_login w'
        = (inr (jsonify RET.OK "ture" [("name", SStr (user_name u))]), w'))
    /\ (user_name u = "" ->
        call check_login w' = (inr (jsonify RET.SESSIONERR "false" []), w')).
Proof.
  intros Hfmt Hpw Hpass Hq Hfind Hcheck.
  destruct (login_success f w mobile password remote_addr u) as (w' & Hcall & Hs);
    try assumption.
  assert (Hname : session w' !! "name" = Some (SStr (user_name u))).
  { rewrite Hs. by simplify_map_eq. }
  exists w'. repeat split; try assumption.
  - rewrite Hs. by simplify_map_eq.
  - rewrite Hs. by simplify_map_eq.
  - intros k H1 H2 H3. rewrite Hs. by simplify_map_eq.
  - intros Hne. now apply check_login_named.
  - intros He. apply check_login_unnamed. right. now rewrite Hname, He.
Qed.

(** X9: [logout] always answers [RET.OK] and empties the session, whatever
    it held; [check_login] then reports no session, and a second [logout]
    changes nothing.  Redis, the user table and the trace are not touched,
    so a counter of failed logins outlives the session. *)
Theorem logout_ends_session (w : world) :
  let w1 := snd (call logout w) in
  fst (call logout w) = inr (jsonify RET.OK "ok" [])
  /\ session w1 = ∅
  /\ call check_login w1 = (inr (jsonify RET.SESSIONERR "false" []), w1)
  /\ call logout w1 = (inr (jsonify RET.OK "ok" []), w1)
  /\ redis w1 = redis w /\ clock w1 = clock w /\ users w1 = users w /\ trace w1 = trace w.
Proof using Type.
  clear. destruct w as [r ck us ps s tr]. cbv zeta. unfold logout. run.
  repeat split; reflexivity.
Qed.

(** ** Errors and edges of the views *)

(** X10: with no live code under the key of the mobile, none stored or the
    stored one expired, [register] answers [RET.NODATA] after the read
    alone: nothing is deleted and the user table is not reached. *)
Theorem register_without_live_code
    (f : faults) (w : world) (mobile code password : string) :
  Re.rematch mobile_re mobile = true -> code <> "" -> password <> "" ->
  get_fault f = None ->
  Redis.live w ("sms_code_" ++ mobile) = None ->
  call (register f (register_form mobile code password password)) w
  = (inr (jsonify RET.NODATA "短信验证码失效" []),
     record (RedisGet ("sms_code_" ++ mobile)) w).
Proof.
  intros Hfmt Hcode Hpw Hget Hlive.
  destruct (register_form_lookup mobile code password password) as (Hm & Hc & Hp & Hp2).
  pose proof (rematch_nonempty _ Hfmt) as Hne. apply eqb_empty in Hcode, Hpw.
  destruct w as [r c us ps s tr]. cbv [Redis.live redis clock] in Hlive.
  unfold register.
  exec_with ltac:(rewrite ?Hm, ?Hc, ?Hp, ?Hp2, ?Hne, ?Hcode, ?Hpw, ?Hfmt, ?Hget, ?Hlive,
                    ?py_ne_refl).
  reflexivity.
Qed.

(** X11: registering a mobile that already has a row is answered
    [RET.DATAEXIST]; the pending row is rolled back, so the user table and
    the session are as before, but the verification code has been spent. *)
Theorem register_duplicate_mobile_rolls_back
    (f : faults) (w : world) (mobile code password : string) (en : entry) :
  Re.rematch mobile_re mobile = true -> code <> "" -> password <> "" ->
  get_fault f = None -> delete_fault f = None -> commit_fault f = None ->
  pending w = [] -> existsb (Db.has_mobile mobile) (users w) = true ->
  Redis.live w ("sms_code_" ++ mobile) = Some en ->
  Bytes.decode (value en) = Some (Bytes.codepoints code) ->
  exists w',
    call (register f (register_form mobile code password password)) w
    = (inr (jsonify RET.DATAEXIST "手机号已存在" []), w')
    /\ users w' = users w /\ pending w' = [] /\ session w' = session w
    /\ redis w' !! ("sms_code_" ++ mobile)%string = None
    /\ In DbRollback (trace w').
Proof.
  clear check_password_hash check_password_hash_other.
  intros Hfmt Hcode Hpw Hget Hdel Hcommit Hpend Hold Hlive Hdec.
  destruct (register_form_lookup mobile code password password) as (Hm & Hc & Hp & Hp2).
  destruct w as [r c us ps s tr]. cbn [pending users trace redis clock session] in *. subst ps.
  cbv [Redis.live redis clock] in Hlive.
  pose proof (rematch_nonempty _ Hfmt) as Hne. apply eqb_empty in Hcode, Hpw.
  eexists. split.
  - unfold register.
    exec_with ltac:(rewrite ?Hm, ?Hc, ?Hp, ?Hp2, ?Hne, ?Hcode, ?Hpw, ?Hfmt, ?Hget, ?Hdel,
                      ?Hcommit, ?Hlive, ?Hdec, ?Hold,
                      ?py_ne_refl, ?bool_decide_eq_refl).
    reflexivity.
  - cbn [users pending session redis trace]. repeat split.
    + apply lookup_delete_eq.
    + rewrite !in_app_iff. cbn [In]. intuition auto.
Qed.

(** X12: a stored code that is not UTF-8 makes [decode] raise; nothing
    catches the [UnicodeDecodeError], which escapes the view after the code
    has been deleted.  The user table and the session are not touched. *)
Theorem register_undecodable_code
    (f : faults) (w : world) (mobile code password : string) (en : entry) :
  Re.rematch mobile_re mobile = true -> code <> "" -> password <> "" ->
  get_fault f = None -> delete_fault f = None ->
  Redis.live w ("sms_code_" ++ mobile) = Some en ->
  Bytes.decode (value en) = None ->
  exists w',
    call (register f (register_form mobile code password password)) w
    = (inl UnicodeDecodeError, w')
    /\ redis w' !! ("sms_code_" ++ mobile)%string = None
    /\ users w' = users w /\ session w' = session w.
Proof.
  intros Hfmt Hcode Hpw Hget Hdel Hlive Hdec.
  destruct (register_form_lookup mobile code password password) as (Hm & Hc & Hp & Hp2).
  destruct w as [r c us ps s tr]. cbv [Redis.live redis clock] in Hlive.
  pose proof (rematch_nonempty _ Hfmt) as Hne. apply eqb_empty in Hcode, Hpw.
  eexists. split.
  - unfold register.
    exec_with ltac:(rewrite ?Hm, ?Hc, ?Hp, ?Hp2, ?Hne, ?Hcode, ?Hpw, ?Hfmt, ?Hget, ?Hdel,
                      ?Hlive, ?Hdec, ?py_ne_refl).
    reflexivity.
  - cbn [users session redis]. repeat split. apply lookup_delete_eq.
Qed.

(** X13: a counter whose value is not the text of an integer makes [int]
    raise in the suite of [else], which no handler covers: the [ValueError]
    escapes [login] after the read of the counter, whatever the
    credentials are, and nothing is written. *)
Theorem login_counter_not_an_integer_raises
    (f : faults) (w : world) (mobile password remote_addr : string) (en : entry) :
  Re.rematch mobile_re mobile = true -> password <> "" ->
  get_fault f = None ->
  Redis.live w ("access_nums_" ++ remote_addr) = Some en ->
  Bytes.to_int (value en) = None ->
  call (login f (login_form mobile password) remote_addr) w
  = (inl ValueError, record (RedisGet ("access_nums_" ++ remote_addr)) w).
Proof.
  intros Hfmt Hpw Hget Hlive Hint.
  destruct (login_form_lookup mobile password) as (Hm & Hp).
  pose proof (rematch_nonempty _ Hfmt) as Hne. apply eqb_empty in Hpw.
  destruct w as [r ck us ps s tr]. cbv [Redis.live redis clock] in Hlive.
  unfold login.
  exec_with ltac:(rewrite ?Hm, ?Hp, ?Hne, ?Hpw, ?Hfmt, ?Hget, ?Hlive, ?Hint).
  reflexivity.
Qed.

(** X14: [incr] and [expire] are two calls.  When the first failed login of
    an address is counted and [expire] then raises, the response is still
    the invalid-credentials one, and the counter is left without a time to
    live: it is live after any delay. *)
Theorem login_expire_failure_leaves_counter_forever
    (f : faults) (w : world) (mobile password remote_addr : string) (e : store_exn) :
  Re.rematch mobile_re mobile = true -> password <> "" ->
  get_fault f = None -> query_fault f = None -> incr_fault f = None ->
  expire_fault f = Some e ->
  credentials_fail w mobile password = true ->
  Redis.live w ("access_nums_" ++ remote_addr) = None ->
  exists w',
    call (login f (login_form mobile password) remote_addr) w
    = (inr (jsonify RET.DATAERR "用户名或密码错误" []), w')
    /\ forall d, Redis.live (elapse d w') ("access_nums_" ++ remote_addr)
                 = Some (Entry (Bytes.of_int 1) None).
Proof.
  intros Hfmt Hpw Hget Hq Hincr Hexp Hfail Hlive.
  destruct (login_form_lookup mobile password) as (Hm & Hp).
  pose proof (rematch_nonempty _ Hfmt) as Hne. apply eqb_empty in Hpw.
  destruct w as [r ck us ps s tr]. cbv [Redis.live redis clock] in Hlive.
  unfold credentials_fail in Hfail. cbv [users check_password str_of] in Hfail.
  destruct (find (Db.has_mobile mobile) us) as [u |] eqn:Hfind.
  - apply negb_true_iff in Hfail. eexists. split.
    + unfold login.
      exec_with ltac:(rewrite ?Hm, ?Hp, ?Hne, ?Hpw, ?Hfmt, ?Hget, ?Hq, ?Hincr, ?Hexp,
                        ?Hlive, ?Hfind, ?Hfail).
      reflexivity.
    + intros d. cbv [Redis.live elapse set_clock redis clock].
      now rewrite live_at_insert.
  - eexists. split.
    + unfold login.
      exec_with ltac:(rewrite ?Hm, ?Hp, ?Hne, ?Hpw, ?Hfmt, ?Hget, ?Hq, ?Hincr, ?Hexp,
                        ?Hlive, ?Hfind).
      reflexivity.
    + intros d. cbv [Redis.live elapse set_clock redis clock].
      now rewrite live_at_insert.
Qed.

(** X17: a failed login that is let through counts: the counter goes from
    [n] to [n + 1] (from none to 1), and its time to live is set to the full
    [LOGIN_ERROR_FORBID_TIME] from the present instant, whatever was left of
    the previous one. *)
Theorem failed_login_counts_and_renews
    (w : world) (mobile password remote_addr : string) (n : Z) :
  0 < LOGIN_ERROR_FORBID_TIME -> 0 <= n -> n < LOGIN_ERROR_MAX_TIMES -> n + 1 < 2 ^ 63 ->
  Re.rematch mobile_re mobile = true -> password <> "" ->
  credentials_fail w mobile password = true ->
  (n = 0 -> Redis.live w ("access_nums_" ++ remote_addr) = None) ->
  (0 < n -> exists ex, Redis.live w ("access_nums_" ++ remote_addr)
                       = Some (Entry (Bytes.of_int n) ex)) ->
  exists w1,
    call (login no_faults (login_form mobile password) remote_addr) w
    = (inr (jsonify RET.DATAERR "用户名或密码错误" []), w1)
    /\ Redis.live w1 ("access_nums_" ++ remote_addr)
       = Some (Entry (Bytes.of_int (n + 1)) (Some (clock w + LOGIN_ERROR_FORBID_TIME))).
Proof.
  intros Hft Hn Hmax H63 Hfmt Hpw Hfail Hzero Hpos.
  destruct (login_failure_counts w mobile password remote_addr n)
    as (w1 & Hcall & Hredis & Hclock & _); try assumption.
  exists w1. split; [exact Hcall |].
  unfold Redis.live, Redis.live_at. rewrite Hredis, Hclock. cbn [expires].
  assert (H : (clock w + LOGIN_ERROR_FORBID_TIME <=? clock w) = false) by (apply Z.leb_gt; lia).
  now rewrite H.
Qed.

(** ** The limiter is per address *)

Lemma live_at_later_none (r r' : gmap string entry) (c c' : Z) (k : string) :
  r' !! k = r !! k -> c <= c' ->
  Redis.live_at r c k = None -> Redis.live_at r' c' k = None.
Proof.
  unfold Redis.live_at. intros -> Hc.
  destruct (r !! k) as [en |]; [| reflexivity].
  destruct (expires en) as [t |]; [| discriminate].
  destruct (t <=? c) eqn:E; [| discriminate]. intros _.
  apply Z.leb_le in E. assert (H : (t <=? c') = true) by (apply Z.leb_le; lia).
  now rewrite H.
Qed.

Lemma failed_logins_frame (remote_addr : string) (attempts : list (Z * string * string)) :
  Forall (fun a => 0 <= fst (fst a)) attempts ->
  forall w,
    clock w <= clock (failed_logins attempts remote_addr w)
    /\ (forall k, k <> ("access_nums_" ++ remote_addr)%string ->
                  redis (failed_logins attempts remote_addr w) !! k = redis w !! k).
Proof.
  induction 1 as [| [[d m] p] rest Hd _ IH]; intros w; cbn [failed_logins].
  - split; [lia | auto].
  - cbn [fst] in Hd.
    destruct (call (login no_faults (login_form m p) remote_addr) (elapse d w))
      as [res w1] eqn:Hcall. cbn [snd].
    destruct (login_effects _ _ _ _ _ _ Hcall) as (Hclock & Hframe & _).
    destruct (IH w1) as [Hc Hf].
    assert (He : clock (elapse d w) = clock w + d /\ redis (elapse d w) = redis w)
      by (destruct w; split; reflexivity).
    destruct He as [He1 He2]. split.
    + lia.
    + intros k Hk. rewrite Hf, Hframe by assumption. now rewrite He2.
Qed.

(** X15: the counter is per address.  Whatever logins one address has made,
    however many have failed, a request from another address that has no
    counter of its own is let through to the credential check. *)
Theorem counters_are_per_address
    (f : faults) (w : world) (attempts : list (Z * string * string))
    (remote_addr other mobile password : string) :
  Forall (fun a => 0 <= fst (fst a)) attempts ->
  other <> remote_addr ->
  Re.rematch mobile_re mobile = true -> password <> "" ->
  Redis.live w ("access_nums_" ++ other) = None ->
  exists r w',
    call (login f (login_form mobile password) other)
      (failed_logins attempts remote_addr w) = (inr r, w')
    /\ errno r <> RET.REQERR
    /\ In (DbQuery mobile) (trace w').
Proof.
  intros Hall Hne Hfmt Hpw Hnone.
  apply login_reaches_credential_check; [assumption .. |].
  destruct (failed_logins_frame remote_addr attempts Hall w) as [Hc Hf].
  unfold limiter_passes. destruct (get_fault f); [reflexivity |].
  unfold Redis.live in *.
  rewrite (live_at_later_none (redis w) _ (clock w) _ _); auto.
  apply Hf. intros H. apply counter_key_inj in H. congruence.
Qed.

(** ** The format check, character by character *)

Lemma one_of_345678 (a : ascii) : Re.one_of "345678" a = between 51 56 a.
Proof using Type. clear. destruct a as [[] [] [] [] [] [] [] []]; reflexivity. Qed.

(** X16: on text in the Latin-1 range, the text a [string] stands for, the
    format check accepts exactly the strings that begin with 1, one of 3 to
    8 and nine ASCII digits: eleven characters are looked at, and nothing
    after them.  (Text with characters beyond code point 255, where [\d]
    also matches the decimal digits of other scripts, is not covered.) *)
Theorem mobile_re_accepts_shape (s : string) :
  Re.rematch mobile_re s = mobile_shape s.
Proof using Type.
  clear. unfold Re.rematch, mobile_re, mobile_shape.
  destruct s as [| c1 [| c2 [| d1 [| d2 [| d3 [| d4 [| d5 [| d6 [| d7 [| d8 [| d9 t]]]]]]]]]]];
    cbn -[Re.one_of Re.digit between]; change Re.digit with (between 48 57);
    repeat (rewrite ?one_of_345678;
            match goal with
            | |- context [if ?b then _ else _] =>
                lazymatch type of b with bool => destruct b end
            end; cbn -[Re.one_of between]; try reflexivity).
  reflexivity.
Qed.

End Passport.

(** ** The theorems at concrete inputs *)

Lemma verification_code_is_single_use_witness :
  (exists w1 w2,
      call (register example_hash example_hash_other no_faults
              (register_form "13800001111" "4321" "secret" "secret")) world_with_code
        = (inr (jsonify RET.OK "注册成功" []), w1)
      /\ redis w1 !! "sms_code_13800001111" = None
      /\ call (register example_hash example_hash_other no_faults
                 (register_form "13800001111" "4321" "secret" "secret")) w1
        = (inr (jsonify RET.NODATA "短信验证码失效" []), w2))
  /\ (exists w1,
        call (register example_hash example_hash_other no_faults
                (register_form "13800001111" "0000" "secret" "secret")) world_with_code
          = (inr (jsonify RET.DATAERR "短信验证码错误" []), w1)
        /\ redis w1 !! "sms_code_13800001111" = None
        /\ trace w1 = [RedisGet "sms_code_13800001111"; RedisDelete "sms_code_13800001111"]).
Proof.
  apply (verification_code_is_single_use example_hash example_hash_other no_faults world_with_code
           "13800001111" "4321" "0000" "secret" (Entry "4321" (Some 300)));
    solve [vm_compute; reflexivity | compute_done].
Defined.


(** Five failed logins from "203.0.113.5", ten seconds apart, with
    [LOGIN_ERROR_MAX_TIMES = 5]: the sixth request is rejected, and the only
    call it makes is the read of the counter. *)
Lemma limiter_blocks_at_max_attempts_witness :
  let attempts := repeat (10, "13800001111", "wrong") 5 in
  let w' := elapse 10 (failed_logins 5 600 example_check example_check_other
                         attempts "203.0.113.5" world_with_user) in
  call (login 5 600 example_check example_check_other no_faults
          (login_form "13800001111" "secret") "203.0.113.5") w'
  = (inr (jsonify RET.REQERR "错误次数太多，请稍后重试" []),
     record (RedisGet "access_nums_203.0.113.5") w').
Proof.
  intros attempts w'.
  assert (Hall : Forall (failing_attempt 600 example_check (users world_with_user)) attempts).
  { repeat constructor; solve [vm_compute; reflexivity | compute_done | lia]. }
  refine (proj1 (proj2 (limiter_blocks_at_max_attempts 5 600 example_check example_check_other
                          no_faults world_with_user attempts "13800001111" "secret" "203.0.113.5" 10
                          _ _ _ _ _ _ _ Hall _)) _ _);
    solve [vm_compute; reflexivity | compute_done | lia | reflexivity].
Defined.

Lemma store_exceptions_are_caught_witness :
  fst (call (register example_hash example_hash_other delete_fails
               (register_form "13800001111" "4321" "secret" "secret")) world_with_code)
  = fst (call (register example_hash example_hash_other no_faults
                 (register_form "13800001111" "4321" "secret" "secret")) world_with_code).
Proof.
  refine (proj2 (proj2 (proj2 (proj2
    (store_exceptions_are_caught 5 600 example_hash example_check example_hash_other
       example_check_other delete_fails ∅
       world_with_code "13800001111" "4321" "secret" "203.0.113.5" _ _ _)))));
    solve [vm_compute; reflexivity | compute_done].
Defined.

Lemma invalid_input_errno_differs_witness :
  (exists msg, call (register example_hash example_hash_other no_faults ∅) world_with_user
               = (inr (jsonify RET.PARAMERR msg []), world_with_user))
  /\ (exists msg, call (login 5 600 example_check example_check_other
                  no_faults ∅ "203.0.113.5") world_with_user
                  = (inr (jsonify RET.DATAERR msg []), world_with_user))
  /\ RET.DATAERR <> RET.PARAMERR.
Proof.
  apply (invalid_input_errno_differs 5 600 example_hash example_check example_hash_other
           example_check_other no_faults ∅
           "203.0.113.5" world_with_user).
  left. vm_compute. reflexivity.
Defined.

Lemma limiter_read_failure_is_fail_open_witness :
  exists r w',
    call (login 5 600 example_check example_check_other redis_down
            (login_form "13800001111" "secret") "203.0.113.5") world_with_counter = (inr r, w')
    /\ errno r <> RET.REQERR
    /\ In (DbQuery "13800001111") (trace w').
Proof.
  apply (limiter_read_failure_is_fail_open 5 600 example_check example_check_other
           redis_down world_with_counter
           "13800001111" "secret" "203.0.113.5" RedisError);
    solve [vm_compute; reflexivity | compute_done].
Defined.

Lemma failure_to_record_does_not_mask_invalid_credentials_witness :
  fst (call (login 5 600 example_check example_check_other
               (Faults None None (Some RedisError) (Some RedisError) None None)
               (login_form "13800001111" "wrong") "203.0.113.5") world_with_counter)
  = inr (jsonify RET.DATAERR "用户名或密码错误" []).
Proof.
  apply (failure_to_record_does_not_mask_invalid_credentials 5 600 example_check example_check_other
           None None (Some RedisError) (Some RedisError) None world_with_counter
           "13800001111" "wrong" "203.0.113.5");
    solve [vm_compute; reflexivity | compute_done].
Defined.


Lemma successful_login_keeps_the_counter_witness :
  let w' := snd (call (login 5 600 example_check example_check_other no_faults
                         (login_form "13800001111" "secret") "203.0.113.5")
                   world_with_counter) in
  redis w' = redis world_with_counter
  /\ clock w' = clock world_with_counter
  /\ Redis.live w' "access_nums_203.0.113.5"
     = Redis.live world_with_counter "access_nums_203.0.113.5"
  /\ exists new, trace w' = (trace world_with_counter ++ new)%list
                 /\ Forall (fun ev => writes_redis ev = false) new.
Proof.
  intros w'.
  apply (successful_login_keeps_the_counter 5 600 example_check example_check_other no_faults
           (login_form "13800001111" "secret") "203.0.113.5" world_with_counter w'
           (jsonify RET.OK "登陆成功" []));
    vm_compute; reflexivity.
Defined.

Lemma mobile_format_anchored_at_start_only_witness :
  Re.rematch mobile_re "13800001111abc" = true
  /\ (register_form "13800001111abc" "4321" "secret" "secret" !! "mobile"
      = Some (PyStr "13800001111abc") ->
      (forall r w', call (register example_hash example_hash_other no_faults
                            (register_form "13800001111abc" "4321" "secret" "secret"))
                      world_with_code = (inr r, w') ->
                    errmsg r <> "手机格式错误")
      /\ (forall r w', call (login 5 600 example_check example_check_other no_faults
                               (register_form "13800001111abc" "4321" "secret" "secret")
                               "203.0.113.5") world_with_code = (inr r, w') ->
                       errmsg r <> "手机号格式不正确")).
Proof.
  apply (mobile_format_anchored_at_start_only 5 600 example_hash example_check example_hash_other
           example_check_other no_faults
           (register_form "13800001111abc" "4321" "secret" "secret") "203.0.113.5"
           world_with_code "13800001111" "abc").
  vm_compute. reflexivity.
Defined.

(** ** Where the code departs from the error kinds of the specification *)

(** When the delete of the verification code raises, [register] does not
    answer with the storage error: it logs the exception and goes on, here to
    a successful registration, and the code is still in the store. *)
Lemma delete_failure_is_not_a_storage_error :
  exists r w',
    call (register example_hash example_hash_other delete_fails
            (register_form "13800001111" "4321" "secret" "secret")) world_with_code
    = (inr r, w')
    /\ errno r = RET.OK
    /\ errno r <> RET.DBERR
    /\ Redis.live w' "sms_code_13800001111" = Some (Entry "4321" (Some 300))
    /\ In (LogError (StoreError RedisError)) (trace w').
Proof.
  do 2 eexists. split; [vm_compute; reflexivity |].
  repeat split; [discriminate | vm_compute; tauto].
Qed.


(** A failure of the commit that is not a uniqueness conflict is answered
    with [RET.DATAERR], the code of a wrong verification code, and not with
    [RET.DBERR] as the failures to read are. *)
Example register_other_commit_failure :
  fst (call (register example_hash example_hash_other
               (Faults None None None None None (Some SQLAlchemyError))
               (register_form "13800001111" "4321" "secret" "secret")) world_with_code)
  = inr (jsonify RET.DATAERR "查询数据库异常" []).
Proof. vm_compute. reflexivity. Qed.

(** [login] answers a request without a mobile with [RET.DATAERR]. *)
Example login_missing_mobile :
  call (login 5 600 example_check example_check_other no_faults ∅ "203.0.113.5") world_with_user
  = (inr (jsonify RET.DATAERR "参数不完整" []), world_with_user).
Proof. vm_compute. reflexivity. Qed.

(** ** Scenarios *)

(** Values that are not strings: [True] is the number 1, a string is never
    a number, and only zero is a false number. *)
Example python_values :
  py_eq (PyInt 1) (PyBool true) = true
  /\ py_ne (PyStr "1") (PyInt 1) = true
  /\ py_ne (PyInt 7) (PyInt 7) = false
  /\ truthy (PyInt 0) = false
  /\ truthy (PyInt 13800001111) = true
  /\ format_s "sms_code_" (PyInt 13800001111) = "sms_code_13800001111".
Proof. repeat split; reflexivity. Qed.

(** [login] with a mobile that is a number: [re.match] raises. *)
Example login_numeric_mobile :
  call (login 5 600 example_check example_check_other no_faults
          (<["mobile" := PyInt 13800001111]> (login_form "" "secret")) "203.0.113.5")
    world_with_user
  = (inl TypeError, world_with_user).
Proof. vm_compute. reflexivity. Qed.

Example mobile_re_examples :
  Re.rematch mobile_re "13800001111" = true
  /\ Re.rematch mobile_re "13800001111abc" = true
  /\ Re.rematch mobile_re "138000011112222" = true
  /\ Re.rematch mobile_re "x13800001111" = false
  /\ Re.rematch mobile_re "12800001111" = false
  /\ Re.rematch mobile_re "1380000111" = false.
Proof. repeat split; reflexivity. Qed.

(** A uniqueness conflict: registering a mobile that has a row. *)
Example register_existing_mobile :
  fst (call (register example_hash example_hash_other no_faults
               (register_form "13800001111" "4321" "other" "other"))
         (World {[ "sms_code_13800001111" := Entry "4321" (Some 300) ]} 0
            [mkUser 1 "13800001111" "13800001111" (example_hash "secret")] [] ∅ []))
  = inr (jsonify RET.DATAEXIST "手机号已存在" []).
Proof. vm_compute. reflexivity. Qed.

(** After a successful login [check_login] gives the name; after [logout] it
    reports no session. *)
Example check_status_scenario :
  let w1 := snd (call (login 5 600 example_check example_check_other no_faults
                         (login_form "13800001111" "secret") "203.0.113.5")
                   world_with_user) in
  let w2 := snd (call logout w1) in
  fst (call check_login w1) = inr (jsonify RET.OK "ture" [("name", SStr "13800001111")])
  /\ fst (call logout w1) = inr (jsonify RET.OK "ok" [])
  /\ fst (call check_login w2) = inr (jsonify RET.SESSIONERR "false" []).
Proof. vm_compute. repeat split; reflexivity. Qed.

(** A counter that is not the text of an integer makes [int] raise in the
    suite of [else], where no handler catches it. *)
Example login_counter_not_an_integer :
  fst (call (login 5 600 example_check example_check_other no_faults
               (login_form "13800001111" "secret") "203.0.113.5")
         (World {[ "access_nums_203.0.113.5" := Entry "many" None ]} 0 [] [] ∅ []))
  = inl ValueError.
Proof. vm_compute. reflexivity. Qed.

Example decode_examples :
  Bytes.decode "4321" = Some (Bytes.codepoints "4321")
  /\ Bytes.decode (String (ascii_of_N 195) "") = None
  /\ Bytes.decode (String (ascii_of_N 195) (String (ascii_of_N 169) ""))
     = Some [233%N].
Proof. repeat split; reflexivity. Qed.

Example to_int_examples :
  Bytes.to_int "5" = Some 5 /\ Bytes.to_int " +1_0 " = Some 10
  /\ Bytes.to_int "-007" = Some (-7) /\ Bytes.to_int "1__0" = None
  /\ Bytes.to_int "_1" = None /\ Bytes.to_int "1_" = None
  /\ Bytes.to_int "" = None /\ Bytes.to_int "- 5" = None /\ Bytes.to_int "abc" = None.
Proof. repeat split; reflexivity. Qed.

Example of_int_examples :
  Bytes.of_int 0 = "0" /\ Bytes.of_int 12 = "12" /\ Bytes.of_int (-3) = "-3".
Proof. repeat split; reflexivity. Qed.

Example stored_int_examples :
  Redis.stored_int "5" = Some 5 /\ Redis.stored_int "007" = None
  /\ Redis.stored_int "+5" = None /\ Redis.stored_int "-0" = None
  /\ Redis.stored_int "9223372036854775808" = None.
Proof. repeat split; reflexivity. Qed.

(** ** The further theorems at concrete inputs *)

Lemma register_failure_leaves_account_state_witness :
  let w' := snd (call (register example_hash example_hash_other no_faults
                         (register_form "13800001111" "0000" "secret" "secret"))
                   world_with_code) in
  session w' = session world_with_code /\ users w' = users world_with_code
  /\ pending w' = [].
Proof.
  intros w'.
  apply (register_failure_leaves_account_state example_hash example_hash_other no_faults
           (register_form "13800001111" "0000" "secret" "secret") world_with_code w'
           (inr (jsonify RET.DATAERR "短信验证码错误" []))).
  - vm_compute. reflexivity.
  - intros msg. discriminate.
  - reflexivity.
Defined.

Lemma login_never_writes_users_witness :
  let w' := snd (call (login 5 600 example_check example_check_other no_faults
                         (login_form "13800001111" "wrong") "203.0.113.5")
                   world_with_user) in
  users w' = users world_with_user /\ pending w' = pending world_with_user
  /\ session w' = session world_with_user.
Proof.
  intros w'.
  destruct (login_never_writes_users 5 600 example_check example_check_other no_faults
              (login_form "13800001111" "wrong") "203.0.113.5" world_with_user w'
              (inr (jsonify RET.DATAERR "用户名或密码错误" [])))
    as (Hu & Hp & Hs).
  - vm_compute. reflexivity.
  - split; [exact Hu | split; [exact Hp |]]. apply Hs. intros msg. discriminate.
Defined.

Lemma login_rejection_writes_nothing_witness :
  snd (call (login 5 600 example_check example_check_other no_faults
               (login_form "13800001111" "secret") "203.0.113.5") world_blocked)
  = record (RedisGet "access_nums_203.0.113.5") world_blocked.
Proof.
  apply (login_rejection_writes_nothing 5 600 example_check example_check_other no_faults
           (login_form "13800001111" "secret") "203.0.113.5" world_blocked _
           (jsonify RET.REQERR "错误次数太多，请稍后重试" []));
    vm_compute; reflexivity.
Defined.

Lemma register_creates_account_and_session_witness :
  let w1 := snd (call (register example_hash example_hash_other no_faults
                         (register_form "13800001111" "4321" "secret" "secret"))
                   world_with_code) in
  users w1 = [mkUser 1 "13800001111" "13800001111" (example_hash "secret")]
  /\ session w1 !! "name" = Some (SStr "13800001111")
  /\ session w1 !! "mobile" = Some (SStr "13800001111")
  /\ session w1 !! "user_id" = Some (SInt 1)
  /\ call check_login w1 = (inr (jsonify RET.OK "ture" [("name", SStr "13800001111")]), w1).
Proof.
  apply (register_creates_account_and_session example_hash example_hash_other
           no_faults world_with_code
           "13800001111" "4321" "secret" (Entry "4321" (Some 300)));
    solve [vm_compute; reflexivity | compute_done].
Defined.

Lemma register_then_login_witness :
  let w1 := snd (call (register example_hash example_hash_other no_faults
                         (register_form "13800001111" "4321" "secret" "secret"))
                   world_with_code) in
  exists w2,
    call (login 5 600 example_check example_check_other
            no_faults (login_form "13800001111" "secret")
            "203.0.113.5") w1
    = (inr (jsonify RET.OK "登陆成功" []), w2)
    /\ session w2 !! "name" = Some (SStr "13800001111")
    /\ session w2 !! "user_id" = Some (SInt 1).
Proof.
  apply (register_then_login 5 600 example_hash example_check example_hash_other
           example_check_other no_faults world_with_code
           "13800001111" "4321" "secret" "203.0.113.5" (Entry "4321" (Some 300)));
    solve [vm_compute; reflexivity | compute_done].
Defined.

Lemma login_establishes_session_witness :
  exists w',
    call (login 5 600 example_check example_check_other
            no_faults (login_form "13800001111" "secret")
            "203.0.113.5") world_with_counter
    = (inr (jsonify RET.OK "登陆成功" []), w')
    /\ session w' !! "name" = Some (SStr "13800001111")
    /\ call check_login w'
       = (inr (jsonify RET.OK "ture" [("name", SStr "13800001111")]), w').
Proof.
  destruct (login_establishes_session 5 600 example_check example_check_other
              no_faults world_with_counter
              "13800001111" "secret" "203.0.113.5"
              (mkUser 1 "13800001111" "13800001111" (example_hash "secret")))
    as (w' & Hcall & Hname & _ & _ & _ & Hcheck & _);
    try solve [vm_compute; reflexivity | compute_done].
  exists w'. split; [exact Hcall | split; [exact Hname |]].
  apply Hcheck. compute_done.
Defined.

(** The code of the subject, stored for 300 seconds, asked for after 300
    seconds. *)
Lemma register_without_live_code_witness :
  call (register example_hash example_hash_other no_faults
          (register_form "13800001111" "4321" "secret" "secret"))
    (elapse 300 world_with_code)
  = (inr (jsonify RET.NODATA "短信验证码失效" []),
     record (RedisGet "sms_code_13800001111") (elapse 300 world_with_code)).
Proof.
  apply (register_without_live_code example_hash example_hash_other
           no_faults (elapse 300 world_with_code)
           "13800001111" "4321" "secret");
    solve [vm_compute; reflexivity | compute_done].
Defined.

Lemma register_duplicate_mobile_rolls_back_witness :
  exists w',
    call (register example_hash example_hash_other no_faults
            (register_form "13800001111" "4321" "other" "other")) world_with_code_and_user
    = (inr (jsonify RET.DATAEXIST "手机号已存在" []), w')
    /\ users w' = users world_with_code_and_user /\ pending w' = []
    /\ session w' = session world_with_code_and_user
    /\ redis w' !! "sms_code_13800001111" = None
    /\ In DbRollback (trace w').
Proof.
  apply (register_duplicate_mobile_rolls_back example_hash example_hash_other
           no_faults world_with_code_and_user
           "13800001111" "4321" "other" (Entry "4321" (Some 300)));
    solve [vm_compute; reflexivity | compute_done].
Defined.

Lemma register_undecodable_code_witness :
  exists w',
    call (register example_hash example_hash_other no_faults
            (register_form "13800001111" "4321" "secret" "secret")) world_with_bad_code
    = (inl UnicodeDecodeError, w')
    /\ redis w' !! "sms_code_13800001111" = None
    /\ users w' = users world_with_bad_code /\ session w' = session world_with_bad_code.
Proof.
  apply (register_undecodable_code example_hash example_hash_other no_faults world_with_bad_code
           "13800001111" "4321" "secret"
           (Entry (String (ascii_of_N 255) EmptyString) (Some 300)));
    solve [vm_compute; reflexivity | compute_done].
Defined.

Lemma login_counter_not_an_integer_raises_witness :
  call (login 5 600 example_check example_check_other no_faults (login_form "13800001111" "secret")
          "203.0.113.5") world_with_bad_counter
  = (inl ValueError, record (RedisGet "access_nums_203.0.113.5") world_with_bad_counter).
Proof.
  apply (login_counter_not_an_integer_raises 5 600 example_check example_check_other no_faults
           world_with_bad_counter "13800001111" "secret" "203.0.113.5" (Entry "many" None));
    solve [vm_compute; reflexivity | compute_done].
Defined.

Lemma login_expire_failure_leaves_counter_forever_witness :
  exists w',
    call (login 5 600 example_check example_check_other
            expire_fails (login_form "13800001111" "wrong")
            "203.0.113.5") world_with_user
    = (inr (jsonify RET.DATAERR "用户名或密码错误" []), w')
    /\ forall d, Redis.live (elapse d w') "access_nums_203.0.113.5"
                 = Some (Entry (Bytes.of_int 1) None).
Proof.
  apply (login_expire_failure_leaves_counter_forever 5 600 example_check example_check_other
           expire_fails
           world_with_user "13800001111" "wrong" "203.0.113.5" RedisError);
    solve [vm_compute; reflexivity | compute_done].
Defined.

(** Five failed logins from "203.0.113.5" do not stop "198.51.100.7". *)
Lemma counters_are_per_address_witness :
  exists r w',
    call (login 5 600 example_check example_check_other
            no_faults (login_form "13800001111" "secret")
            "198.51.100.7")
      (failed_logins 5 600 example_check example_check_other (repeat (10, "13800001111", "wrong") 5)
         "203.0.113.5" world_with_user) = (inr r, w')
    /\ errno r <> RET.REQERR
    /\ In (DbQuery "13800001111") (trace w').
Proof.
  apply (counters_are_per_address 5 600 example_check example_check_other no_faults world_with_user
           (repeat (10, "13800001111", "wrong") 5) "203.0.113.5" "198.51.100.7"
           "13800001111" "secret").
  - repeat constructor; cbn; lia.
  - compute_done.
  - vm_compute. reflexivity.
  - compute_done.
  - vm_compute. reflexivity.
Defined.

(** The third failed login of "203.0.113.5", 100 seconds after the second. *)
Lemma failed_login_counts_and_renews_witness :
  exists w1,
    call (login 5 600 example_check example_check_other no_faults (login_form "13800001111" "wrong")
            "203.0.113.5") (elapse 100 world_with_counter)
    = (inr (jsonify RET.DATAERR "用户名或密码错误" []), w1)
    /\ Redis.live w1 "access_nums_203.0.113.5" = Some (Entry (Bytes.of_int 3) (Some 700)).
Proof.
  apply (failed_login_counts_and_renews 5 600 example_check example_check_other
           (elapse 100 world_with_counter)
           "13800001111" "wrong" "203.0.113.5" 2);
    try solve [vm_compute; reflexivity | compute_done | lia].
  intros _. eexists. vm_compute. reflexivity.
Defined.
